(** * projects-app-api: the [project] application

    A shallow embedding of [app/project/views.py], [app/project/serializers.py]
    and [app/project/urls.py], together with the parts of Django and of Django
    REST framework (DRF) that these files drive: query sets, model serializers,
    the generic view-set mixins and the router.

    The database is explicit state: every request is a function from a
    database to an outcome and a new database. *)

From Stdlib Require Import ZArith String Ascii.
From stdpp Require Import base decidable option list sorting gmap strings.

Local Open Scope Z_scope.
Local Open Scope string_scope.

(* The solvers of stdpp clear hypotheses that sections have already
   discharged. *)
#[local] Set Warnings "-clear-no-such-hyp".

(** ** Python built-ins *)

Module Py.

(** A [str] is kept as the bytes of its UTF-8 encoding, which is how the
    string literals of this file come. [code_points] reads the characters
    back. *)
Definition byte (c : ascii) : Z := Z.of_N (N_of_ascii c).

Definition in_range (lo hi x : Z) : bool := (Z.leb lo x && Z.ltb x hi)%bool.

(** [need] bytes of the current character are still to come, [acc] holds
    its bits so far and [lo] is the least code point that takes an encoding
    of this length. Bytes that encode nothing read as U+FFFD. *)
Fixpoint utf8_decode (need : nat) (lo acc : Z) (l : list Z) {struct l}
    : list Z :=
  match l with
  | [] => match need with O => [] | S _ => [65533] end
  | b :: r =>
      let lead :=
        if Z.ltb b 128 then b :: utf8_decode 0 0 0 r
        else if in_range 192 224 b then utf8_decode 1 128 (b - 192) r
        else if in_range 224 240 b then utf8_decode 2 2048 (b - 224) r
        else if in_range 240 248 b then utf8_decode 3 65536 (b - 240) r
        else 65533 :: utf8_decode 0 0 0 r in
      match need with
      | O => lead
      | S n =>
          if in_range 128 192 b then
            let acc' := acc * 64 + (b - 128) in
            match n with
            | O => (if in_range lo 1114112 acc' then acc' else 65533)
                   :: utf8_decode 0 0 0 r
            | S _ => utf8_decode n lo acc' r
            end
          else 65533 :: lead
      end
  end.

Definition code_points (s : string) : list Z :=
  utf8_decode 0 0 0 (byte <$> list_ascii_of_string s).

(** [Py_UNICODE_ISSPACE]: the characters of bidirectional type WS, B or S
    and of category Zs. *)
Definition unicode_isspace (ch : Z) : bool :=
  bool_decide
    (ch ∈ [9; 10; 11; 12; 13; 28; 29; 30; 31; 32; 133; 160; 5760; 8192; 8193;
           8194; 8195; 8196; 8197; 8198; 8199; 8200; 8201; 8202; 8232; 8233;
           8239; 8287; 12288]).

(** The decimal digits of the Unicode database (version 14.0, the one of
    CPython 3.11) come in runs of ten, zero to nine; these are the zeros:
    ASCII, Arabic-Indic, extended Arabic-Indic, NKo, Devanagari, ... *)
Definition decimal_zeros : list Z :=
  [48; 1632; 1776; 1984; 2406; 2534; 2662; 2790; 2918; 3046; 3174; 3302;
   3430; 3558; 3664; 3792; 3872; 4160; 4240; 6112; 6160; 6470; 6608; 6784;
   6800; 6992; 7088; 7232; 7248; 42528; 43216; 43264; 43472; 43504; 43600;
   44016; 65296; 66720; 68912; 69734; 69872; 69942; 70096; 70384; 70736;
   70864; 71248; 71360; 71472; 71904; 72016; 72784; 73040; 73120; 92768;
   92864; 93008; 120782; 120792; 120802; 120812; 120822; 123200; 123632;
   125264; 130032].

(** [Py_UNICODE_TODECIMAL] *)
Definition unicode_todecimal (ch : Z) : option Z :=
  (λ zero, ch - zero)
    <$> List.find (λ zero, in_range zero (zero + 10) ch) decimal_zeros.

(** [_PyUnicode_TransformDecimalAndSpaceToASCII]: an ASCII string is taken
    as it is; in any other string a space becomes [' '], a decimal digit
    its ASCII digit, and at the first other character above ASCII the
    string ends with ['?']. *)
Fixpoint transform (l : list Z) : list Z :=
  match l with
  | [] => []
  | ch :: r =>
      if Z.ltb ch 127 then ch :: transform r
      else if unicode_isspace ch then 32 :: transform r
      else match unicode_todecimal ch with
           | Some d => (48 + d) :: transform r
           | None => [63]
           end
  end.

Definition is_ascii (l : list Z) : bool := forallb (λ ch, Z.ltb ch 128) l.

Definition TransformDecimalAndSpaceToASCII (l : list Z) : list Z :=
  if is_ascii l then l else transform l.

(** [Py_ISSPACE]: the characters that C's [isspace] accepts. *)
Definition is_space (c : Z) : bool := (Z.eqb c 32 || in_range 9 14 c)%bool.

Definition digit_val (c : Z) : option Z :=
  if in_range 48 58 c then Some (c - 48) else None.

Fixpoint lstrip (s : list Z) : list Z :=
  match s with
  | c :: s' => if is_space c then lstrip s' else s
  | [] => []
  end.

(** [rstrip] drops the trailing white space: a space is kept only when
    something else follows it. *)
Fixpoint rstrip (s : list Z) : list Z :=
  match s with
  | c :: s' =>
      match rstrip s' with
      | [] => if is_space c then [] else [c]
      | r => c :: r
      end
  | [] => []
  end.

Definition strip (s : list Z) : list Z := rstrip (lstrip s).

(** Decimal digits, where a single underscore may stand between two digits.
    [after_digit] tells whether the previous character was a digit. *)
Fixpoint digits (acc : Z) (after_digit : bool) (s : list Z) : option Z :=
  match s with
  | [] => if after_digit then Some acc else None
  | c :: s' =>
      match digit_val c with
      | Some d => digits (10 * acc + d) true s'
      | None =>
          if (Z.eqb c 95 && after_digit)%bool then digits acc false s'
          else None
      end
  end.

Fixpoint count_digits (s : list Z) : Z :=
  match s with
  | [] => 0
  | c :: s' =>
      match digit_val c with Some _ => 1 | None => 0 end + count_digits s'
  end.

(** [sys.int_info]: the limit on the digits of a converted string (CPython
    3.11, and the security releases of 3.7 to 3.10) and the length from
    which it is checked. *)
Definition default_max_str_digits : Z := 4300.
Definition str_digits_check_threshold : Z := 640.

(** [PyLong_FromString] in base ten: optional white space, an optional sign,
    digits, optional white space; [None] is [ValueError]. *)
Definition long_from_string (s : list Z) : option Z :=
  let '(negative, body) :=
    match strip s with
    | c :: r => if Z.eqb c 43 then (false, r)
                else if Z.eqb c 45 then (true, r)
                else (false, c :: r)
    | [] => (false, [])
    end in
  n ← digits 0 false body;
  let k := count_digits body in
  if (Z.ltb str_digits_check_threshold k && Z.ltb 0 default_max_str_digits
      && Z.ltb default_max_str_digits k)%bool
  then None
  else Some (if negative then - n else n).

(** [int(s)] for a [str] argument: [None] is [ValueError]. *)
Definition int_of_str (s : string) : option Z :=
  long_from_string (TransformDecimalAndSpaceToASCII (code_points s)).

(** [bool(n)] for an [int]. *)
Definition bool_of_int (n : Z) : bool := negb (Z.eqb n 0).

End Py.

(** ** The models

    [core/models.py] is not among the sources of the application; the two
    models are written after the data model that the specification gives. *)

(** An identity: the key of the authenticated user. *)
Definition User : Type := Z.

#[global] Instance User_eq_dec : EqDecision User := Z.eq_dec.

(** Modelled from the spec: [core.models.Tag], a label with a name and the
    identity that owns it. *)
Record Tag : Type := mkTag {
  tag_id : Z;
  name : string;
  tag_user : User
}.

#[global] Instance Tag_eq_dec : EqDecision Tag.
Proof. solve_decision. Defined.

(** Modelled from the spec: [core.models.Project]. [price] is a decimal with
    two places, kept in hundredths; [tags] is the many-to-many relation, the
    set of the keys of the tags linked to the row. *)
Record Project : Type := mkProject {
  id : Z;
  title : string;
  description : string;
  price : Z;
  link : string;
  user : User;
  tags : gset Z
}.

#[global] Instance Project_eq_dec : EqDecision Project.
Proof. solve_decision. Defined.

(** The two tables, each in the order in which a scan returns its rows (a new
    row goes to the end), and the sequences that hand out primary keys. *)
Record DB : Type := mkDB {
  tag_table : list Tag;
  tag_seq : Z;
  project_table : list Project;
  project_seq : Z
}.

Definition empty_db : DB :=
  {| tag_table := []; tag_seq := 1; project_table := []; project_seq := 1 |}.

(** Primary keys are unique and were handed out by the sequence. *)
Record wf_db (db : DB) : Prop := {
  wf_tag_keys : NoDup (tag_id <$> tag_table db);
  wf_tag_seq : Forall (λ t, tag_id t < tag_seq db) (tag_table db);
  wf_project_keys : NoDup (id <$> project_table db);
  wf_project_seq : Forall (λ p, id p < project_seq db) (project_table db)
}.

#[global] Instance wf_db_dec db : Decision (wf_db db).
Proof.
  refine (cast_if (decide (NoDup (tag_id <$> tag_table db)
                           ∧ Forall (λ t, tag_id t < tag_seq db) (tag_table db)
                           ∧ NoDup (id <$> project_table db)
                           ∧ Forall (λ p, id p < project_seq db)
                                    (project_table db))));
    [ constructor; tauto | intros [? ? ? ?]; tauto ].
Defined.

(** ** Request data *)

(** A parsed primitive value: what the JSON parser produces; a form field is
    always a [DStr]. *)
#[warnings="-register-all"] Inductive Data : Type :=
  | DNull
  | DBool (b : bool)
  | DInt (z : Z)
  | DStr (s : string)
  | DList (l : list Data).

(** [django.http.QueryDict]: a key may occur several times. *)
Abbreviation QueryDict := (list (string * string)) (only parsing).

Module QueryDict.

Definition getlist (key : string) (d : QueryDict) : list string :=
  snd <$> filter (λ kv, kv.1 = key) d.

(** [d.get(key)]: the last value of the key. *)
Definition get (key : string) (d : QueryDict) : option string :=
  last (getlist key d).

End QueryDict.

(** The body of a request: a [QueryDict] for form and multipart encodings, a
    [dict] for JSON. *)
Inductive RequestData : Type :=
  | FormData (d : QueryDict)
  | JsonData (d : list (string * Data)).

(** [dict.get(key)] on a parsed JSON object; the last occurrence of a key is
    the one the parser keeps. *)
Definition dict_get (key : string) (d : list (string * Data)) : option Data :=
  last (snd <$> filter (λ kv, kv.1 = key) d).

Definition supplies (key : string) (d : RequestData) : bool :=
  match d with
  | FormData q => bool_decide (key ∈ q.*1)
  | JsonData j => bool_decide (key ∈ j.*1)
  end.

(** ** Query sets ([django.db.models]) *)

Module orm.

Inductive GetResult (A : Type) : Type :=
  | Got (a : A)
  | DoesNotExist
  | MultipleObjectsReturned
  | BadValue.   (* TypeError or ValueError while preparing the lookup value *)
Arguments Got {A} a.
Arguments DoesNotExist {A}.
Arguments MultipleObjectsReturned {A}.
Arguments BadValue {A}.

(** [QuerySet.get] on the rows that match. *)
Definition get {A : Type} (rows : list A) : GetResult A :=
  match rows with
  | [] => DoesNotExist
  | [a] => Got a
  | _ => MultipleObjectsReturned
  end.

(** The value of a [pk=...] lookup, as the integer field prepares it:
    [int(value)], and [bool] is refused by the related field. *)
Definition to_pk (v : Data) : option Z :=
  match v with
  | DInt z => Some z
  | DStr s => Py.int_of_str s
  | _ => None
  end.

(** *** Tags *)

Inductive TagLookup : Type :=
  | recipe__isnull_False
  | tag_user_eq (u : User).

#[global] Instance TagLookup_eq_dec : EqDecision TagLookup.
Proof. solve_decision. Defined.

Inductive TagOrdering : Type := name_desc.   (* '-name' *)

(** A query set is a description of a query; [evaluate] runs it. *)
Record TagQuerySet : Type := {
  tq_where : list TagLookup;
  tq_order_by : option TagOrdering;
  tq_distinct : bool
}.

(** [Tag.objects.all()] *)
Definition Tag_objects_all : TagQuerySet :=
  {| tq_where := []; tq_order_by := None; tq_distinct := false |}.

Definition filter_tag (lk : TagLookup) (q : TagQuerySet) : TagQuerySet :=
  {| tq_where := tq_where q ++ [lk];
     tq_order_by := tq_order_by q; tq_distinct := tq_distinct q |}.

Definition order_by (o : TagOrdering) (q : TagQuerySet) : TagQuerySet :=
  {| tq_where := tq_where q; tq_order_by := Some o;
     tq_distinct := tq_distinct q |}.

Definition distinct (q : TagQuerySet) : TagQuerySet :=
  {| tq_where := tq_where q; tq_order_by := tq_order_by q;
     tq_distinct := true |}.

(** Modelled from the spec: the relation that the lookup [recipe__isnull]
    follows is declared in [core/models.py], which is not among the
    sources. The specification describes the filter as keeping the tags
    "referenced by at least one project", so [recipe] is the reverse side
    of [Project.tags]: the projects linked to the tag. *)
Definition recipe (db : DB) (t : Tag) : list Project :=
  filter (λ p, tag_id t ∈ tags p) (project_table db).

Definition joins_recipe (q : TagQuerySet) : bool :=
  bool_decide (recipe__isnull_False ∈ tq_where q).

(** FROM: the tag table, joined (INNER JOIN) with the link rows when a
    lookup follows the relation; a tag comes once per link. *)
Definition tag_from (db : DB) (q : TagQuerySet) : list Tag :=
  if joins_recipe q
  then t ← tag_table db; (λ _, t) <$> recipe db t
  else tag_table db.

(** WHERE. After the inner join the link is never null. *)
Definition tag_matches (t : Tag) (lk : TagLookup) : bool :=
  match lk with
  | recipe__isnull_False => true
  | tag_user_eq u => bool_decide (tag_user t = u)
  end.

(** ORDER BY name DESC: the earlier row has the greater or equal name. *)
Definition name_ge (t1 t2 : Tag) : Prop :=
  String.leb (name t2) (name t1) = true.

#[global] Instance name_ge_dec : RelDecision name_ge.
Proof. intros t1 t2. unfold name_ge. apply _. Defined.

(** SELECT [DISTINCT] ... FROM ... WHERE ... [ORDER BY ...] *)
Definition evaluate_tags (db : DB) (q : TagQuerySet) : list Tag :=
  let rows :=
    filter (λ t, forallb (tag_matches t) (tq_where q) = true) (tag_from db q) in
  let rows := if tq_distinct q then remove_dups rows else rows in
  match tq_order_by q with
  | Some name_desc => merge_sort name_ge rows
  | None => rows
  end.

(** *** Projects *)

Inductive ProjectLookup : Type :=
  | project_user_eq (u : User)
  | project_pk_eq (pk : Z).

(** Modelled from the spec: the data model gives [Project] no default
    ordering (the [Meta] of the model is in [core/models.py], which is not
    among the sources). The views apply no [order_by] to projects, so a
    query set of projects has only its filters and its rows come in scan
    order. *)
Record ProjectQuerySet : Type := {
  pq_where : list ProjectLookup
}.

(** [Project.objects.all()] *)
Definition Project_objects_all : ProjectQuerySet := {| pq_where := [] |}.

Definition filter_project (lk : ProjectLookup) (q : ProjectQuerySet)
  : ProjectQuerySet :=
  {| pq_where := pq_where q ++ [lk] |}.

Definition project_matches (p : Project) (lk : ProjectLookup) : bool :=
  match lk with
  | project_user_eq u => bool_decide (user p = u)
  | project_pk_eq pk => bool_decide (id p = pk)
  end.

Definition evaluate_projects (db : DB) (q : ProjectQuerySet) : list Project :=
  filter (λ p, forallb (project_matches p) (pq_where q) = true)
         (project_table db).

(** [queryset.get(pk=value)] *)
Definition get_project (db : DB) (q : ProjectQuerySet) (value : Data)
  : GetResult Project :=
  match to_pk value with
  | None => BadValue
  | Some pk => get (evaluate_projects db (filter_project (project_pk_eq pk) q))
  end.

Definition get_tag (db : DB) (q : TagQuerySet) (value : Data) : GetResult Tag :=
  match to_pk value with
  | None => BadValue
  | Some pk => get (filter (λ t, tag_id t = pk) (evaluate_tags db q))
  end.

(** [project.tags.all()]: the tags linked to the project. *)
Definition tags_all (db : DB) (p : Project) : list Tag :=
  filter (λ t, tag_id t ∈ tags p) (tag_table db).

End orm.

(** ** Exceptions and responses *)

Inductive Exception : Type :=
  | ValueError
  | MultipleObjectsReturned
  | Http404
  | ValidationError
  | NotAuthenticated
  | MethodNotAllowed
  | NotAcceptable
  | UnsupportedMediaType
  | ParseError.

(** A computation that returns or raises. *)
Inductive Result (A : Type) : Type :=
  | Ok (a : A)
  | Raise (e : Exception).
Arguments Ok {A} a.
Arguments Raise {A} e.

#[global] Instance Result_ret : MRet Result := λ A a, Ok a.
#[global] Instance Result_bind : MBind Result := λ A B f m,
  match m with
  | Ok a => f a
  | Raise e => Raise e
  end.

(** The representation of a tag: [{id, name}]. *)
Record TagRepr : Type := mkTagRepr {
  r_id : Z;
  r_name : string
}.

(** The [tags] entry of a project representation: bare primary keys in the
    write/list shape, embedded tag objects in the detail shape. *)
Inductive TagsRepr : Type :=
  | PkList (pks : list Z)
  | Nested (objs : list TagRepr).

Record ProjectRepr : Type := mkProjectRepr {
  pr_id : Z;
  pr_title : string;
  pr_description : string;
  pr_tags : TagsRepr;
  pr_price : Z;
  pr_link : string
}.

Inductive Body : Type :=
  | NoContent
  | Page404                              (* the URL resolver found no route *)
  | Detail                               (* an error body *)
  | TagData (t : TagRepr)
  | TagListData (l : list TagRepr)
  | ProjectData (p : ProjectRepr)
  | ProjectListData (l : list ProjectRepr)
  | ApiRoot (names : list string)        (* the root view: one link per name *)
  | Metadata (actions : list string).    (* OPTIONS: the methods described *)

Record Response : Type := mkResponse {
  status_code : Z;
  data : Body
}.

Inductive Outcome : Type :=
  | Responded (r : Response)
  | Unhandled (e : Exception).          (* leaves the view: a server error *)

(** [rest_framework.views.exception_handler]: API exceptions and [Http404]
    become responses, anything else is raised again. *)
Definition handle_exception (e : Exception) : Outcome :=
  match e with
  | Http404 => Responded {| status_code := 404; data := Detail |}
  | ValidationError => Responded {| status_code := 400; data := Detail |}
  | NotAuthenticated => Responded {| status_code := 401; data := Detail |}
  | MethodNotAllowed => Responded {| status_code := 405; data := Detail |}
  | NotAcceptable => Responded {| status_code := 406; data := Detail |}
  | UnsupportedMediaType => Responded {| status_code := 415; data := Detail |}
  | ParseError => Responded {| status_code := 400; data := Detail |}
  | ValueError | MultipleObjectsReturned => Unhandled e
  end.

(** ** Serializers ([app/project/serializers.py]) *)

(** What [ModelSerializer] derives from the declaration of each scalar model
    field: the conversion and validation of a value that the request
    supplies ([None] is a validation error). The declarations (lengths,
    digits) are in [core/models.py], which is not among the sources, so the
    converters are parameters of the development. *)
Class ModelFields : Type := {
  name_field : Data → option string;          (* Tag.name *)
  title_field : Data → option string;
  description_field : Data → option string;
  price_field : Data → option Z;
  link_field : Data → option string
}.

Module serializers.

(** The options of a serializer field that decide how a missing value is
    treated. *)
Record FieldOpts : Type := mkOpts {
  required : bool;
  allow_null : bool;
  allow_blank : bool;
  default_empty_html : option Data      (* [None] is [empty] *)
}.

(** Modelled from the spec: [name], [title] and [description] are required
    text, [price] a required decimal and [link] optional text. None of
    these fields has a [default_empty_html] of its own: a form field that
    is missing is [empty], as in JSON. *)
Definition char_required : FieldOpts :=
  {| required := true; allow_null := false; allow_blank := false;
     default_empty_html := None |}.

Definition decimal_required : FieldOpts :=
  {| required := true; allow_null := false; allow_blank := false;
     default_empty_html := None |}.

Definition char_optional : FieldOpts :=
  {| required := false; allow_null := false; allow_blank := true;
     default_empty_html := None |}.

(** [Field.get_value]: the primitive value of the field in the request data;
    [None] is [empty]. *)
Definition get_value (o : FieldOpts) (partial : bool) (field_name : string)
    (d : RequestData) : option Data :=
  match d with
  | FormData q =>
      match QueryDict.get field_name q with
      | None => if partial then None else default_empty_html o
      | Some ret =>
          if (bool_decide (ret = "") && allow_null o)%bool
          then Some (if allow_blank o then DStr "" else DNull)
          else if (bool_decide (ret = "") && negb (required o))%bool
          then (if allow_blank o then Some (DStr "") else None)
          else Some (DStr ret)
      end
  | JsonData j => dict_get field_name j
  end.

Inductive FieldResult (A : Type) : Type :=
  | Valid (a : A)
  | Skipped                      (* SkipField *)
  | Invalid                      (* ValidationError, collected per field *)
  | Failed (e : Exception).      (* any other exception *)
Arguments Valid {A} a.
Arguments Skipped {A}.
Arguments Invalid {A}.
Arguments Failed {A} e.

(** [Field.run_validation]: an empty value is skipped on a partial update,
    refused when the field is required, and otherwise skipped (no default). *)
Definition run_validation {A : Type} (o : FieldOpts) (partial : bool)
    (to_internal : Data → option A) (v : option Data) : FieldResult A :=
  match v with
  | None => if partial then Skipped else if required o then Invalid else Skipped
  | Some x => match to_internal x with
              | Some a => Valid a
              | None => Invalid
              end
  end.

Definition value {A : Type} (r : FieldResult A) : option A :=
  match r with
  | Valid a => Some a
  | _ => None
  end.

Definition is_invalid {A : Type} (r : FieldResult A) : bool :=
  match r with
  | Invalid => true
  | _ => false
  end.

Definition failure {A : Type} (r : FieldResult A) : option Exception :=
  match r with
  | Failed e => Some e
  | _ => None
  end.

(** *** [TagSerializer]: fields [('id', 'name')], [id] read-only *)

Definition Tag_to_representation (t : Tag) : TagRepr :=
  {| r_id := tag_id t; r_name := name t |}.

Definition Tag_to_internal_value `{!ModelFields} (partial : bool)
    (d : RequestData) : Result (option string) :=
  match run_validation char_required partial name_field
          (get_value char_required partial "name" d) with
  | Valid s => Ok (Some s)
  | Skipped => Ok None
  | Invalid => Raise ValidationError
  | Failed e => Raise e
  end.

(** [serializer.save(user=...)] on a new tag: [Tag.objects.create]. *)
Definition Tag_create (validated_name : option string) (u : User) (db : DB)
    : Tag * DB :=
  let t := {| tag_id := tag_seq db; name := default "" validated_name;
              tag_user := u |} in
  (t, {| tag_table := tag_table db ++ [t]; tag_seq := tag_seq db + 1;
         project_table := project_table db;
         project_seq := project_seq db |}).

(** *** [ProjectSerializer] and [ProjectDetailSerializer] *)

Inductive ProjectSerializerClass : Type :=
  | ProjectSerializer
  | ProjectDetailSerializer.

(** [tags = PrimaryKeyRelatedField(many=True, queryset=Tag.objects.all())]:
    one item of the list is looked up by primary key among all the tags. *)
Definition tags_child_run_validation (db : DB) (item : Data) : FieldResult Tag :=
  match orm.get_tag db orm.Tag_objects_all item with
  | orm.Got t => Valid t
  | orm.DoesNotExist => Invalid              (* does_not_exist *)
  | orm.BadValue => Invalid                  (* incorrect_type, null *)
  | orm.MultipleObjectsReturned => Failed MultipleObjectsReturned
  end.

(** The list comprehension over the items: the first item that raises ends
    it. *)
Fixpoint many (rs : list (FieldResult Tag)) : FieldResult (list Tag) :=
  match rs with
  | [] => Valid []
  | Valid t :: rs' =>
      match many rs' with
      | Valid ts => Valid (t :: ts)
      | r => r
      end
  | Skipped :: _ => Skipped
  | Invalid :: _ => Invalid
  | Failed e :: _ => Failed e
  end.

(** [ManyRelatedField.get_value]: in form data a missing key is the empty
    list, except on a partial update. *)
Definition tags_get_value (partial : bool) (d : RequestData) : option Data :=
  match d with
  | FormData q =>
      if (negb (bool_decide ("tags" ∈ q.*1)) && partial)%bool then None
      else Some (DList (DStr <$> QueryDict.getlist "tags" q))
  | JsonData j => dict_get "tags" j
  end.

(** [ManyRelatedField.run_validation]: the field is required, null is
    refused, and the value must be a list (an empty one is allowed). *)
Definition tags_run_validation (db : DB) (partial : bool) (v : option Data)
    : FieldResult (list Tag) :=
  match v with
  | None => if partial then Skipped else Invalid
  | Some (DList l) => many (tags_child_run_validation db <$> l)
  | Some _ => Invalid
  end.

(** [validated_data]: the fields that passed, by name. *)
Record Validated : Type := mkValidated {
  v_title : option string;
  v_description : option string;
  v_tags : option (list Tag);
  v_price : option Z;
  v_link : option string
}.

(** [Serializer.to_internal_value] over the writable fields
    [title, description, tags, price, link]; [tags] is read-only in
    [ProjectDetailSerializer]. *)
Definition to_internal_value `{!ModelFields} (cls : ProjectSerializerClass)
    (db : DB) (partial : bool) (d : RequestData) : Result Validated :=
  let t := run_validation char_required partial title_field
             (get_value char_required partial "title" d) in
  let e := run_validation char_required partial description_field
             (get_value char_required partial "description" d) in
  let g := match cls with
           | ProjectSerializer =>
               tags_run_validation db partial (tags_get_value partial d)
           | ProjectDetailSerializer => Skipped
           end in
  let p := run_validation decimal_required partial price_field
             (get_value decimal_required partial "price" d) in
  let l := run_validation char_optional partial link_field
             (get_value char_optional partial "link" d) in
  match failure t ∪ failure e ∪ failure g ∪ failure p ∪ failure l with
  | Some exn => Raise exn
  | None =>
      if (is_invalid t || is_invalid e || is_invalid g || is_invalid p
          || is_invalid l)%bool
      then Raise ValidationError
      else Ok {| v_title := value t; v_description := value e;
                 v_tags := value g; v_price := value p; v_link := value l |}
  end.

(** [tags.set(objs)]: the links of the project become exactly the keys of
    the given tags. *)
Definition tag_keys (objs : list Tag) : gset Z := list_to_set (tag_id <$> objs).

(** [ModelSerializer.create] under [serializer.save(user=...)]: the row is
    inserted with the next key, then the links are set. *)
Definition create (v : Validated) (u : User) (db : DB) : Project * DB :=
  let p := {| id := project_seq db;
              title := default "" (v_title v);
              description := default "" (v_description v);
              price := default 0 (v_price v);
              link := default "" (v_link v);
              user := u;
              tags := from_option tag_keys ∅ (v_tags v) |} in
  (p, {| tag_table := tag_table db; tag_seq := tag_seq db;
         project_table := project_table db ++ [p];
         project_seq := project_seq db + 1 |}).

(** [ModelSerializer.update]: every validated attribute is assigned, the row
    is saved, and the links are set when [tags] was validated. *)
Definition update (instance : Project) (v : Validated) (db : DB)
    : Project * DB :=
  let p := {| id := id instance;
              title := default (title instance) (v_title v);
              description := default (description instance) (v_description v);
              price := default (price instance) (v_price v);
              link := default (link instance) (v_link v);
              user := user instance;
              tags := from_option tag_keys (tags instance) (v_tags v) |} in
  (p, {| tag_table := tag_table db; tag_seq := tag_seq db;
         project_table :=
           (λ r, if decide (id r = id instance) then p else r)
             <$> project_table db;
         project_seq := project_seq db |}).

(** [to_representation]: [tags] is the list of keys of [project.tags.all()]
    in [ProjectSerializer], and [TagSerializer(many=True)] over the same
    rows in [ProjectDetailSerializer]. *)
Definition to_representation (cls : ProjectSerializerClass) (db : DB)
    (p : Project) : ProjectRepr :=
  {| pr_id := id p;
     pr_title := title p;
     pr_description := description p;
     pr_tags := match cls with
                | ProjectSerializer => PkList (tag_id <$> orm.tags_all db p)
                | ProjectDetailSerializer =>
                    Nested (Tag_to_representation <$> orm.tags_all db p)
                end;
     pr_price := price p;
     pr_link := link p |}.

End serializers.

(** ** Views ([app/project/views.py]) *)

Module views.

Inductive Method : Type := GET | POST | PUT | PATCH | DELETE.

(** The actions of a view set: ['list'], ['create'], ['retrieve'],
    ['update'], ['partial_update'] and ['destroy']. *)
Inductive Action : Type :=
  | ActList
  | ActCreate
  | ActRetrieve
  | ActUpdate
  | ActPartialUpdate
  | ActDestroy.

#[global] Instance Method_eq_dec : EqDecision Method.
Proof. solve_decision. Defined.

#[global] Instance Action_eq_dec : EqDecision Action.
Proof. solve_decision. Defined.

Record Request : Type := mkRequest {
  method : Method;
  req_user : option User;        (* [None]: no valid token *)
  query_params : QueryDict;
  req_data : RequestData
}.

(** The actions that each base class of [rest_framework] brings. *)
Definition GenericViewSet : list Action := [].
Definition ListModelMixin : list Action := [ActList].
Definition CreateModelMixin : list Action := [ActCreate].
Definition RetrieveModelMixin : list Action := [ActRetrieve].
Definition UpdateModelMixin : list Action := [ActUpdate; ActPartialUpdate].
Definition DestroyModelMixin : list Action := [ActDestroy].
Definition ModelViewSet : list Action :=
  CreateModelMixin ++ RetrieveModelMixin ++ UpdateModelMixin
  ++ DestroyModelMixin ++ ListModelMixin ++ GenericViewSet.

(** [class BaseProjectAttrViewSet(GenericViewSet, ListModelMixin,
    CreateModelMixin)] *)
Module BaseProjectAttrViewSet.

Definition bases : list Action :=
  GenericViewSet ++ ListModelMixin ++ CreateModelMixin.

(** [int(self.request.query_params.get('assigned_only', 0))] *)
Definition assigned_only_param (q : QueryDict) : Result Z :=
  match QueryDict.get "assigned_only" q with
  | None => Ok 0
  | Some s => match Py.int_of_str s with
              | Some n => Ok n
              | None => Raise ValueError
              end
  end.

Definition get_queryset (queryset : orm.TagQuerySet) (u : User)
    (request : Request) : Result orm.TagQuerySet :=
  n ← assigned_only_param (query_params request);
  let assigned_only := Py.bool_of_int n in
  let queryset :=
    if assigned_only
    then orm.filter_tag orm.recipe__isnull_False queryset
    else queryset in
  Ok (orm.distinct
        (orm.order_by orm.name_desc
           (orm.filter_tag (orm.tag_user_eq u) queryset))).

(** [serializer.save(user=self.request.user)] *)
Definition perform_create (validated_name : option string) (u : User)
    (db : DB) : Tag * DB :=
  serializers.Tag_create validated_name u db.

End BaseProjectAttrViewSet.

(** [class TagViewSet(BaseProjectAttrViewSet)] *)
Module TagViewSet.

Definition bases : list Action := BaseProjectAttrViewSet.bases.

Definition queryset : orm.TagQuerySet := orm.Tag_objects_all.

(** [ListModelMixin.list] *)
Definition list_ (u : User) (request : Request) (db : DB)
    : Result (Response * DB) :=
  q ← BaseProjectAttrViewSet.get_queryset queryset u request;
  Ok ({| status_code := 200;
         data := TagListData
                   (serializers.Tag_to_representation
                      <$> orm.evaluate_tags db q) |}, db).

(** [CreateModelMixin.create] *)
Definition create `{!ModelFields} (u : User) (request : Request) (db : DB)
    : Result (Response * DB) :=
  v ← serializers.Tag_to_internal_value false (req_data request);
  let '(t, db') := BaseProjectAttrViewSet.perform_create v u db in
  Ok ({| status_code := 201;
         data := TagData (serializers.Tag_to_representation t) |}, db').

End TagViewSet.

(** [class ProjectViewSet(viewsets.ModelViewSet)] *)
Module ProjectViewSet.

Definition bases : list Action := ModelViewSet.

Definition serializer_class : serializers.ProjectSerializerClass :=
  serializers.ProjectSerializer.

Definition queryset : orm.ProjectQuerySet := orm.Project_objects_all.

Definition get_queryset (u : User) : orm.ProjectQuerySet :=
  orm.filter_project (orm.project_user_eq u) queryset.

Definition get_serializer_class (action : Action)
    : serializers.ProjectSerializerClass :=
  match action with
  | ActRetrieve => serializers.ProjectDetailSerializer
  | _ => serializer_class
  end.

Definition perform_create (v : serializers.Validated) (u : User) (db : DB)
    : Project * DB :=
  serializers.create v u db.

(** [GenericAPIView.get_object]: [get_object_or_404] on the query set of the
    view, with the [pk] of the URL. *)
Definition get_object (u : User) (pk : string) (db : DB) : Result Project :=
  match orm.get_project db (get_queryset u) (DStr pk) with
  | orm.Got p => Ok p
  | orm.DoesNotExist | orm.BadValue => Raise Http404
  | orm.MultipleObjectsReturned => Raise MultipleObjectsReturned
  end.

(** [ListModelMixin.list] *)
Definition list_ (action : Action) (u : User) (db : DB)
    : Result (Response * DB) :=
  Ok ({| status_code := 200;
         data := ProjectListData
                   (serializers.to_representation
                      (get_serializer_class action) db
                      <$> orm.evaluate_projects db (get_queryset u)) |}, db).

(** [CreateModelMixin.create] *)
Definition create `{!ModelFields} (action : Action) (u : User)
    (request : Request) (db : DB) : Result (Response * DB) :=
  let cls := get_serializer_class action in
  v ← serializers.to_internal_value cls db false (req_data request);
  let '(p, db') := perform_create v u db in
  Ok ({| status_code := 201;
         data := ProjectData (serializers.to_representation cls db' p) |},
      db').

(** [RetrieveModelMixin.retrieve] *)
Definition retrieve (action : Action) (u : User) (pk : string) (db : DB)
    : Result (Response * DB) :=
  instance ← get_object u pk db;
  Ok ({| status_code := 200;
         data := ProjectData
                   (serializers.to_representation
                      (get_serializer_class action) db instance) |}, db).

(** [UpdateModelMixin.update] *)
Definition update `{!ModelFields} (action : Action) (partial : bool)
    (u : User) (pk : string) (request : Request) (db : DB)
    : Result (Response * DB) :=
  instance ← get_object u pk db;
  let cls := get_serializer_class action in
  v ← serializers.to_internal_value cls db partial (req_data request);
  let '(p, db') := serializers.update instance v db in
  Ok ({| status_code := 200;
         data := ProjectData (serializers.to_representation cls db' p) |},
      db').

(** [UpdateModelMixin.partial_update] *)
Definition partial_update `{!ModelFields} (action : Action) (u : User)
    (pk : string) (request : Request) (db : DB) : Result (Response * DB) :=
  update action true u pk request db.

(** [DestroyModelMixin.destroy]: [instance.delete()] *)
Definition destroy (u : User) (pk : string) (db : DB)
    : Result (Response * DB) :=
  instance ← get_object u pk db;
  Ok ({| status_code := 204; data := NoContent |},
      {| tag_table := tag_table db; tag_seq := tag_seq db;
         project_table :=
           filter (λ r, id r ≠ id instance) (project_table db);
         project_seq := project_seq db |}).

End ProjectViewSet.

Inductive ViewSet : Type := TagViewSet_ | ProjectViewSet_.

Definition actions (v : ViewSet) : list Action :=
  match v with
  | TagViewSet_ => TagViewSet.bases
  | ProjectViewSet_ => ProjectViewSet.bases
  end.

End views.

(** ** URLs ([app/project/urls.py]) *)

Module urls.

Import views.

(** A route of [rest_framework.routers.SimpleRouter]. *)
Record Route : Type := mkRoute {
  detail : bool;
  mapping : list (Method * Action)
}.

Definition routes : list Route :=
  [ {| detail := false; mapping := [(GET, ActList); (POST, ActCreate)] |};
    {| detail := true;
       mapping := [(GET, ActRetrieve); (PUT, ActUpdate);
                   (PATCH, ActPartialUpdate); (DELETE, ActDestroy)] |} ].

(** [router.register('tags', views.TagViewSet)] and
    [router.register('projects', views.ProjectViewSet)] *)
Definition registry : list (string * ViewSet) :=
  [("tags", TagViewSet_); ("projects", ProjectViewSet_)].

(** [get_method_map]: the entries whose action the view set has. *)
Definition get_method_map (v : ViewSet) (method_map : list (Method * Action))
    : list (Method * Action) :=
  filter (λ ma, ma.2 ∈ actions v) method_map.

Record URLPattern : Type := mkURLPattern {
  prefix : string;
  pattern_detail : bool;
  action_map : list (Method * Action);
  viewset : ViewSet
}.

(** [get_urls]: a route whose method map comes out empty gives no URL. *)
Definition get_urls : list URLPattern :=
  pv ← registry;
  route ← routes;
  match get_method_map pv.2 (mapping route) with
  | [] => []
  | m => [ {| prefix := pv.1; pattern_detail := detail route;
              action_map := m; viewset := pv.2 |} ]
  end.

Definition urlpatterns : list URLPattern := get_urls.

(** The path of a request: [<prefix>/] or [<prefix>/<pk>/], where [pk] is
    the segment that the lookup pattern of the router matches. *)
Inductive Path : Type :=
  | Collection (prefix : string)
  | Item (prefix : string) (pk : string).

Definition path_matches (path : Path) (u : URLPattern) : bool :=
  match path with
  | Collection x => bool_decide (prefix u = x) && negb (pattern_detail u)
  | Item x _ => bool_decide (prefix u = x) && pattern_detail u
  end.

Definition resolve (path : Path) : option URLPattern :=
  snd <$> list_find (λ u, path_matches path u = true) urlpatterns.

End urls.

(** ** Serving a request *)

Import views urls.

(** [APIView.initial]: [TokenAuthentication] and [IsAuthenticated]. *)
Definition initial (request : Request) : Result User :=
  match req_user request with
  | Some u => Ok u
  | None => Raise NotAuthenticated
  end.

(** The handler bound to the method by [ViewSetMixin.as_view]. *)
Definition handler (action_map : list (Method * Action)) (m : Method)
    : Result Action :=
  match list_find (λ ma, ma.1 = m) action_map with
  | Some (_, (_, a)) => Ok a
  | None => Raise MethodNotAllowed
  end.

Definition run_action `{!ModelFields} (v : ViewSet) (action : Action)
    (u : User) (path : Path) (request : Request) (db : DB)
    : Result (Response * DB) :=
  match v, action, path with
  | TagViewSet_, ActList, _ => TagViewSet.list_ u request db
  | TagViewSet_, ActCreate, _ => TagViewSet.create u request db
  | ProjectViewSet_, ActList, _ => ProjectViewSet.list_ action u db
  | ProjectViewSet_, ActCreate, _ => ProjectViewSet.create action u request db
  | ProjectViewSet_, ActRetrieve, Item _ pk =>
      ProjectViewSet.retrieve action u pk db
  | ProjectViewSet_, ActUpdate, Item _ pk =>
      ProjectViewSet.update action false u pk request db
  | ProjectViewSet_, ActPartialUpdate, Item _ pk =>
      ProjectViewSet.partial_update action u pk request db
  | ProjectViewSet_, ActDestroy, Item _ pk => ProjectViewSet.destroy u pk db
  | _, _, _ => Raise MethodNotAllowed
  end.

(** [APIView.dispatch]: authenticate, find the handler, run it; an exception
    goes through [handle_exception] and leaves the database as it was. *)
Definition respond (r : Result (Response * DB)) (db : DB) : Outcome * DB :=
  match r with
  | Ok (resp, db') => (Responded resp, db')
  | Raise e => (handle_exception e, db)
  end.

Definition dispatch `{!ModelFields} (u : URLPattern) (path : Path)
    (request : Request) (db : DB) : Outcome * DB :=
  respond (who ← initial request;
           action ← handler (action_map u) (method request);
           run_action (viewset u) action who path request db) db.

(** The URL resolver in front of the views: no match is Django's 404. *)
Definition get_response `{!ModelFields} (path : Path) (request : Request)
    (db : DB) : Outcome * DB :=
  match resolve path with
  | None => (Responded {| status_code := 404; data := Page404 |}, db)
  | Some u => dispatch u path request db
  end.

(** ** The default router and the request as the server receives it

    [urls.py] builds its patterns with [DefaultRouter]: next to the patterns
    of [SimpleRouter] it serves a root view and, for every pattern, a twin
    with a format suffix ([tags.json], [projects/1.json]). A view of DRF
    chooses the renderer of its answer before it authenticates, answers
    HEAD and OPTIONS next to the methods of its routes, and parses the body
    when a handler first reads [request.data]. [WSGIHandler] puts these
    steps around the view sets. [get_response] above is what is left of it
    for a URL without suffix, a method of the routes, a body that parses
    and a format that selects the JSON renderer.

    The settings module of the project is not among the sources: renderers,
    metadata and the permissions of the root view are the defaults of DRF. *)

Module negotiation.

(** A media type as [_MediaType] reads it: [main/sub] and the names of its
    parameters. *)
Record MediaType : Type := mkMediaType {
  main_type : string;
  sub_type : string;
  params : list string
}.

(** A renderer class: its [format] and its [media_type], which has no
    parameters. *)
Record Renderer : Type := mkRenderer {
  format : string;
  media_main : string;
  media_sub : string
}.

#[global] Instance Renderer_eq_dec : EqDecision Renderer.
Proof. solve_decision. Defined.

Definition JSONRenderer : Renderer :=
  {| format := "json"; media_main := "application"; media_sub := "json" |}.

Definition BrowsableAPIRenderer : Renderer :=
  {| format := "api"; media_main := "text"; media_sub := "html" |}.

(** [DEFAULT_RENDERER_CLASSES] *)
Definition renderer_classes : list Renderer :=
  [JSONRenderer; BrowsableAPIRenderer].

(** [filter_renderers] *)
Definition filter_renderers (renderers : list Renderer) (fmt : string)
    : Result (list Renderer) :=
  match filter (λ r, format r = fmt) renderers with
  | [] => Raise Http404
  | l => Ok l
  end.

(** [media_type_matches(renderer.media_type, media_type)]: the type of the
    renderer has no parameter, so none is compared. *)
Definition media_type_matches (r : Renderer) (m : MediaType) : bool :=
  (String.eqb (media_sub r) "*" || String.eqb (sub_type m) "*"
   || String.eqb (sub_type m) (media_sub r))
  && (String.eqb (media_main r) "*" || String.eqb (main_type m) "*"
      || String.eqb (main_type m) (media_main r)).

(** [_MediaType.precedence] *)
Definition precedence (m : MediaType) : Z :=
  if String.eqb (main_type m) "*" then 0
  else if String.eqb (sub_type m) "*" then 1
  else if bool_decide (params m = [] ∨ params m = ["q"]) then 2
  else 3.

(** The loops of [select_renderer]: the accepted types by falling
    precedence, and for each set the first renderer that matches one. *)
Definition first_match (renderers : list Renderer) (accepts : list MediaType)
    : option Renderer :=
  let pick (k : Z) :=
    List.find (λ r, existsb (media_type_matches r)
                      (filter (λ m, precedence m = k) accepts)) renderers in
  pick 3 ∪ pick 2 ∪ pick 1 ∪ pick 0.

(** [format_suffix or request.query_params.get('format')] *)
Definition format_override (format_suffix : option string)
    (query_params : QueryDict) : option string :=
  match format_suffix with
  | Some f => if String.eqb f "" then QueryDict.get "format" query_params
              else Some f
  | None => QueryDict.get "format" query_params
  end.

(** [DefaultContentNegotiation.select_renderer] *)
Definition select_renderer (query_params : QueryDict)
    (accepts : list MediaType) (renderers : list Renderer)
    (format_suffix : option string) : Result Renderer :=
  renderers ←
    match format_override format_suffix query_params with
    | Some f => if String.eqb f "" then Ok renderers
                else filter_renderers renderers f
    | None => Ok renderers
    end;
  match first_match renderers accepts with
  | Some r => Ok r
  | None => Raise NotAcceptable
  end.

End negotiation.

Module DefaultRouter.

Inductive View : Type :=
  | APIRootView
  | ViewSetView (u : URLPattern).

(** A pattern of the router: [^prefix], then [/(?P<pk>[^/.]+)] when it has
    the lookup, then either its ending ([/$] for a view set, [$] for the
    root) or, in the twin that [format_suffix_patterns] adds,
    [\.(?P<format>[a-z0-9]+)/?$]. *)
Record Pattern : Type := mkPattern {
  pat_prefix : string;
  pat_lookup : bool;
  pat_ending : string;
  pat_suffix : bool;
  pat_view : View
}.

(** [SimpleRouter.get_urls] *)
Definition simple_urls : list Pattern :=
  (λ u, {| pat_prefix := prefix u; pat_lookup := pattern_detail u;
           pat_ending := "/"; pat_suffix := false;
           pat_view := ViewSetView u |}) <$> urls.get_urls.

(** The root view: [^$] *)
Definition root_url : Pattern :=
  {| pat_prefix := ""; pat_lookup := false; pat_ending := "";
     pat_suffix := false; pat_view := APIRootView |}.

(** [format_suffix_patterns]: every pattern, followed by its twin. *)
Definition format_suffix_patterns (l : list Pattern) : list Pattern :=
  p ← l;
  [p; {| pat_prefix := pat_prefix p; pat_lookup := pat_lookup p;
         pat_ending := pat_ending p; pat_suffix := true;
         pat_view := pat_view p |}].

(** [DefaultRouter.get_urls] *)
Definition get_urls : list Pattern :=
  format_suffix_patterns (simple_urls ++ [root_url]).

(** [urlpatterns = [path('', include(router.urls))]] *)
Definition urlpatterns : list Pattern := get_urls.

(** [[^/.]] *)
Definition pk_char (c : ascii) : bool :=
  negb (Ascii.eqb c "/" || Ascii.eqb c ".").

(** [[a-z0-9]] *)
Definition format_char (c : ascii) : bool :=
  let n := nat_of_ascii c in
  (Nat.leb 97 n && Nat.leb n 122) || (Nat.leb 48 n && Nat.leb n 57).

Fixpoint strip_prefix (p s : string) : option string :=
  match p with
  | EmptyString => Some s
  | String a p' =>
      match s with
      | String b s' => if Ascii.eqb a b then strip_prefix p' s' else None
      | EmptyString => None
      end
  end.

(** The longest run of characters of the class at the head of the string,
    and the rest. *)
Fixpoint span (cls : ascii → bool) (s : string) : string * string :=
  match s with
  | String c s' =>
      if cls c then let '(k, rest) := span cls s' in (String c k, rest)
      else (EmptyString, s)
  | EmptyString => (EmptyString, EmptyString)
  end.

(** The keyword arguments of a match: [pk] and [format]. A class that
    excludes what follows it matches the longest run and nothing else. *)
Definition match_pattern (p : Pattern) (url : string)
    : option (option string * option string) :=
  rest ← strip_prefix (pat_prefix p) url;
  '(pk, rest) ←
    (if pat_lookup p
     then rest ← strip_prefix "/" rest;
          let '(k, rest) := span pk_char rest in
          if String.eqb k "" then None else Some (Some k, rest)
     else Some (None, rest));
  if pat_suffix p
  then rest ← strip_prefix "." rest;
       let '(f, rest) := span format_char rest in
       if negb (String.eqb f "")
          && (String.eqb rest "" || String.eqb rest "/")
       then Some (pk, Some f) else None
  else if String.eqb rest (pat_ending p) then Some (pk, None) else None.

Record ResolverMatch : Type := mkResolverMatch {
  func : View;
  kw_pk : option string;
  kw_format : option string
}.

Fixpoint first_pattern (l : list Pattern) (url : string)
    : option ResolverMatch :=
  match l with
  | [] => None
  | p :: l' =>
      match match_pattern p url with
      | Some (pk, fmt) =>
          Some {| func := pat_view p; kw_pk := pk; kw_format := fmt |}
      | None => first_pattern l' url
      end
  end.

(** [resolve(path_info)]: the URL below the place where the project mounts
    the application. *)
Definition resolve (url : string) : option ResolverMatch :=
  first_pattern urlpatterns url.

End DefaultRouter.

(** The request methods: those that the routes map, and the others. Django
    knows HEAD, OPTIONS and TRACE; any other token is refused. *)
Inductive HttpMethod : Type :=
  | Routed (m : Method)
  | HEAD
  | OPTIONS
  | TRACE
  | Unknown (token : string).

(** What reading [request.data] gives: the parsed data, a JSON document that
    is no object, a body that its parser refuses, or a content type that no
    parser takes. *)
Inductive Payload : Type :=
  | Parsed (d : RequestData)
  | NotAMapping
  | Malformed
  | UnsupportedType.

(** The request as the WSGI server hands it over, with its headers and its
    query string already cut up: [PATH_INFO] is the URL below the place
    where the project mounts the application, [HTTP_ACCEPT] the media types
    of the [Accept] header ([*/*] when there is none) and
    [HTTP_AUTHORIZATION] the user of the token, if the header carries a
    valid one. *)
Record environ : Type := mkEnviron {
  PATH_INFO : string;
  REQUEST_METHOD : HttpMethod;
  HTTP_ACCEPT : list negotiation.MediaType;
  HTTP_AUTHORIZATION : option User;
  QUERY_STRING : QueryDict;
  wsgi_input : Payload
}.

(** The [Request] that a handler of the view set sees. *)
Definition to_request (m : Method) (r : environ) (d : RequestData) : Request :=
  {| method := m; req_user := HTTP_AUTHORIZATION r;
     query_params := QUERY_STRING r; req_data := d |}.

Definition to_path (u : URLPattern) (pk : option string) : Path :=
  match pk with
  | Some k => Item (prefix u) k
  | None => Collection (prefix u)
  end.

(** The exception that reading [request.data] raises, and, for a document
    that is no object, the one that [is_valid] raises right after. *)
Definition payload_error (p : Payload) : Exception :=
  match p with
  | Malformed => ParseError
  | UnsupportedType => UnsupportedMediaType
  | _ => ValidationError
  end.

(** The handler of a mapped method. [create] reads [request.data] first,
    [update] after [get_object]; the other actions do not read it. *)
Definition run_handler `{!ModelFields} (u : URLPattern) (pk : option string)
    (m : Method) (who : User) (r : environ) (db : DB)
    : Result (Response * DB) :=
  action ← handler (action_map u) m;
  match wsgi_input r with
  | Parsed d =>
      run_action (viewset u) action who (to_path u pk) (to_request m r d) db
  | bad =>
      match action with
      | ActCreate => Raise (payload_error bad)
      | ActUpdate | ActPartialUpdate =>
          match pk with
          | Some k => _ ← ProjectViewSet.get_object who k db;
                      Raise (payload_error bad)
          | None => Raise (payload_error bad)
          end
      | ActList | ActRetrieve | ActDestroy =>
          run_action (viewset u) action who (to_path u pk)
            (to_request m r (FormData [])) db
      end
  end.

(** [APIView.options] with [SimpleMetadata]: of PUT and POST, the methods
    that the view allows are described; PUT only when [get_object] finds
    the object. *)
Definition options (u : URLPattern) (pk : option string) (who : User)
    (db : DB) : Result (Response * DB) :=
  let allowed m := bool_decide (m ∈ (action_map u).*1) in
  put ← (if allowed PUT
         then match pk with
              | Some k =>
                  match ProjectViewSet.get_object who k db with
                  | Ok _ => Ok ["PUT"]
                  | Raise Http404 => Ok []
                  | Raise e => Raise e
                  end
              | None => Ok ["PUT"]
              end
         else Ok []);
  let post := if allowed POST then ["POST"] else [] in
  Ok ({| status_code := 200; data := Metadata (put ++ post) |}, db).

(** [APIRootView]: the names of the registered prefixes, each with the link
    to its list; any caller may read it. *)
Definition api_root (r : environ) (db : DB) : Result (Response * DB) :=
  match REQUEST_METHOD r with
  | Routed GET | HEAD =>
      Ok ({| status_code := 200; data := ApiRoot urls.registry.*1 |}, db)
  | OPTIONS => Ok ({| status_code := 200; data := Metadata [] |}, db)
  | _ => Raise MethodNotAllowed
  end.

(** The view behind a match, after the renderer is chosen: the rest of
    [initial], then the handler. HEAD is bound to the handler of GET. *)
Definition view `{!ModelFields} (m : DefaultRouter.ResolverMatch)
    (r : environ) (db : DB) : Result (Response * DB) :=
  match DefaultRouter.func m with
  | DefaultRouter.APIRootView => api_root r db
  | DefaultRouter.ViewSetView u =>
      who ← initial (to_request GET r (FormData []));
      match REQUEST_METHOD r with
      | Routed mth => run_handler u (DefaultRouter.kw_pk m) mth who r db
      | HEAD => run_handler u (DefaultRouter.kw_pk m) GET who r db
      | OPTIONS => options u (DefaultRouter.kw_pk m) who db
      | TRACE | Unknown _ => Raise MethodNotAllowed
      end
  end.

(** Rendering: the page of the browsable API turns an empty 204 into a
    200. *)
Definition render (renderer : negotiation.Renderer) (o : Outcome) : Outcome :=
  match o with
  | Responded resp =>
      if bool_decide (renderer = negotiation.BrowsableAPIRenderer)
         && Z.eqb (status_code resp) 204
      then Responded {| status_code := 200; data := data resp |}
      else o
  | Unhandled _ => o
  end.

(** The resolver, then [APIView.dispatch]: the renderer is chosen first
    (an unknown format is a 404, no acceptable renderer a 406), then the
    view runs. *)
Definition WSGIHandler `{!ModelFields} (r : environ) (db : DB)
    : Outcome * DB :=
  match DefaultRouter.resolve (PATH_INFO r) with
  | None => (Responded {| status_code := 404; data := Page404 |}, db)
  | Some m =>
      match negotiation.select_renderer (QUERY_STRING r) (HTTP_ACCEPT r)
              negotiation.renderer_classes (DefaultRouter.kw_format m) with
      | Raise e => (handle_exception e, db)
      | Ok renderer =>
          let '(o, db') := respond (view m r db) db in (render renderer o, db')
      end
  end.

(** ** Vocabulary of the properties *)

(** The row of a project, by primary key. *)
Definition project_by_id (db : DB) (k : Z) : option Project :=
  snd <$> list_find (λ p, id p = k) (project_table db).

Definition tag_by_id (db : DB) (k : Z) : option Tag :=
  snd <$> list_find (λ t, tag_id t = k) (tag_table db).

(** The two shapes of a project representation. *)
Inductive Shape : Type := WriteShape | DetailShape.

Definition shape (r : ProjectRepr) : Shape :=
  match pr_tags r with
  | PkList _ => WriteShape
  | Nested _ => DetailShape
  end.

Definition project_reprs (b : Body) : list ProjectRepr :=
  match b with
  | ProjectData r => [r]
  | ProjectListData l => l
  | _ => []
  end.

(** The action that a request is routed to, if any. *)
Definition action_of (path : Path) (request : Request) : option Action :=
  u ← resolve path;
  match handler (action_map u) (method request) with
  | Ok a => Some a
  | Raise _ => None
  end.

(** The tag references that the request data supplies under [tags], when it
    supplies a list of them. *)
Definition supplied_tags (d : RequestData) : option (list Data) :=
  match d with
  | FormData q =>
      if bool_decide ("tags" ∈ q.*1)
      then Some (DStr <$> QueryDict.getlist "tags" q)
      else None
  | JsonData j =>
      match dict_get "tags" j with
      | Some (DList l) => Some l
      | _ => None
      end
  end.

(** A reference names a tag of the table. *)
Definition names_tag (db : DB) (item : Data) : Prop :=
  Exists (λ t, orm.to_pk item = Some (tag_id t)) (tag_table db).

#[global] Instance names_tag_dec db item : Decision (names_tag db item).
Proof. unfold names_tag. apply _. Defined.

(** The request data supplies no other key than [key]. *)
Definition supplies_only (key : string) (d : RequestData) : Prop :=
  match d with
  | FormData q => Forall (λ k, k = key) q.*1
  | JsonData j => Forall (λ k, k = key) j.*1
  end.

#[global] Instance supplies_only_dec key d : Decision (supplies_only key d).
Proof. destruct d; apply _. Defined.

(** The set of keys that a list of references denotes. *)
Definition reference_set (items : list Data) : gset Z :=
  list_to_set (omap orm.to_pk items).

Definition status (o : Outcome) : option Z :=
  match o with
  | Responded r => Some (status_code r)
  | Unhandled _ => None
  end.



(** The three URLs of the router. *)
Definition tags_collection_pattern : URLPattern :=
  {| prefix := "tags"; pattern_detail := false;
     action_map := [(GET, ActList); (POST, ActCreate)];
     viewset := TagViewSet_ |}.

Definition projects_collection_pattern : URLPattern :=
  {| prefix := "projects"; pattern_detail := false;
     action_map := [(GET, ActList); (POST, ActCreate)];
     viewset := ProjectViewSet_ |}.

Definition projects_item_pattern : URLPattern :=
  {| prefix := "projects"; pattern_detail := true;
     action_map := [(GET, ActRetrieve); (PUT, ActUpdate);
                    (PATCH, ActPartialUpdate); (DELETE, ActDestroy)];
     viewset := ProjectViewSet_ |}.


(** The outcome of the [tags] field in [ProjectSerializer]. *)
Definition tags_result (db : DB) (partial : bool) (d : RequestData)
    : serializers.FieldResult (list Tag) :=
  serializers.tags_run_validation db partial
    (serializers.tags_get_value partial d).

(** The same request with other data. *)
Definition with_data (d : RequestData) (request : Request) : Request :=
  {| method := method request; req_user := req_user request;
     query_params := query_params request; req_data := d |}.

(** The request data with one more entry in front. *)
Definition add_entry (key value : string) (d : RequestData) : RequestData :=
  match d with
  | FormData q => FormData ((key, value) :: q)
  | JsonData j => JsonData ((key, DStr value) :: j)
  end.

(** The names of the fields that the serializers read. *)
Definition writable_fields : list string :=
  ["name"; "title"; "description"; "tags"; "price"; "link"].

(** What one request of identity [u] can do to the database. *)
Inductive db_step (u : User) (db : DB) : DB → Prop :=
  | step_same : db_step u db db
  | step_tag_created t :
      tag_id t = tag_seq db → tag_user t = u →
      db_step u db
        {| tag_table := tag_table db ++ [t]; tag_seq := tag_seq db + 1;
           project_table := project_table db;
           project_seq := project_seq db |}
  | step_project_created p :
      id p = project_seq db → user p = u →
      db_step u db
        {| tag_table := tag_table db; tag_seq := tag_seq db;
           project_table := project_table db ++ [p];
           project_seq := project_seq db + 1 |}
  | step_project_updated p p' :
      p ∈ project_table db → user p = u → id p' = id p → user p' = u →
      db_step u db
        {| tag_table := tag_table db; tag_seq := tag_seq db;
           project_table :=
             (λ r, if decide (id r = id p) then p' else r)
               <$> project_table db;
           project_seq := project_seq db |}
  | step_project_deleted p :
      p ∈ project_table db → user p = u →
      db_step u db
        {| tag_table := tag_table db; tag_seq := tag_seq db;
           project_table := filter (λ r, id r ≠ id p) (project_table db);
           project_seq := project_seq db |}.

(** A sequence of requests, served one after the other. *)
Fixpoint serve_all `{!ModelFields} (requests : list (Path * Request))
    (db : DB) : DB :=
  match requests with
  | [] => db
  | (path, request) :: rest =>
      serve_all rest (get_response path request db).2
  end.

(** The data lacks an entry that a full write cannot do without: [title],
    [description] or [price], and in JSON also [tags] (in form data a
    missing [tags] is read as the empty list). *)
Definition lacks_required (d : RequestData) : Prop :=
  match d with
  | FormData q =>
      QueryDict.get "title" q = None ∨ QueryDict.get "description" q = None
      ∨ QueryDict.get "price" q = None
  | JsonData j =>
      dict_get "title" j = None ∨ dict_get "description" j = None
      ∨ dict_get "price" j = None ∨ dict_get "tags" j = None
  end.

#[global] Instance lacks_required_dec d : Decision (lacks_required d).
Proof. destruct d; apply _. Defined.


(** The value that the request data supplies under a name, if any: the last
    one of a form field. *)
Definition supplied (field_name : string) (d : RequestData) : option Data :=
  match d with
  | FormData q => DStr <$> QueryDict.get field_name q
  | JsonData j => dict_get field_name j
  end.

(** Every tag key of every project names a tag of the table. *)
Definition refs_ok (db : DB) : Prop :=
  ∀ p k, p ∈ project_table db → k ∈ tags p →
         ∃ t, t ∈ tag_table db ∧ tag_id t = k.

(** [*/*]: what a request without [Accept] header accepts. *)
Definition any_media : negotiation.MediaType :=
  {| negotiation.main_type := "*"; negotiation.sub_type := "*";
     negotiation.params := [] |}.

(** The URL of a path of the simple router. *)
Definition url_of (path : Path) : string :=
  match path with
  | Collection x => x ++ "/"
  | Item x pk => x ++ "/" ++ pk ++ "/"
  end.

(** A text that the lookup group [[^/.]+] of the router matches. *)
Definition is_segment (pk : string) : bool :=
  negb (String.eqb pk "")
  && forallb DefaultRouter.pk_char (list_ascii_of_string pk).

(** The URLs without format suffix that lead to a view set. *)
Definition plain (path : Path) : Prop :=
  path = Collection "tags" ∨ path = Collection "projects"
  ∨ ∃ pk, path = Item "projects" pk ∧ is_segment pk = true.

(** The same request with another query string. *)
Definition with_params (q : QueryDict) (r : environ) : environ :=
  {| PATH_INFO := PATH_INFO r; REQUEST_METHOD := REQUEST_METHOD r;
     HTTP_ACCEPT := HTTP_ACCEPT r; HTTP_AUTHORIZATION := HTTP_AUTHORIZATION r;
     QUERY_STRING := q; wsgi_input := wsgi_input r |}.

(** The renderer that the request selects, if any. *)
Definition accepted_renderer (m : DefaultRouter.ResolverMatch) (r : environ)
    : Result negotiation.Renderer :=
  negotiation.select_renderer (QUERY_STRING r) (HTTP_ACCEPT r)
    negotiation.renderer_classes (DefaultRouter.kw_format m).

(** The match leads to the tag view set. *)
Definition to_tags (m : DefaultRouter.ResolverMatch) : Prop :=
  ∃ u, DefaultRouter.func m = DefaultRouter.ViewSetView u
       ∧ viewset u = TagViewSet_.

(** The methods that run the handler of GET. *)
Definition reads (m : HttpMethod) : Prop := m = Routed GET ∨ m = HEAD.

(** *** A sample instance and a sample database *)

(** Sample strings: U+0663 ARABIC-INDIC DIGIT THREE and U+00A0 NO-BREAK
    SPACE in UTF-8, and [n] times the digit one. *)
Definition arabic_indic_three : string := String "217" (String "163" "").
Definition no_break_space : string := String "194" (String "160" "").
Definition ones (n : nat) : string := string_of_list_ascii (repeat "1"%char n).

Definition sample_text (blank : bool) (d : Data) : option string :=
  match d with
  | DStr s => if (bool_decide (s = "") && negb blank)%bool then None else Some s
  | _ => None
  end.

Definition sample_price (d : Data) : option Z :=
  match d with
  | DInt z => Some (100 * z)
  | DStr s => Z.mul 100 <$> Py.int_of_str s
  | _ => None
  end.

Definition sample_fields : ModelFields :=
  {| name_field := sample_text false; title_field := sample_text false;
     description_field := sample_text false; price_field := sample_price;
     link_field := sample_text true |}.

Definition mkreq (m : Method) (u : User) (q : QueryDict) (d : RequestData)
    : Request :=
  {| method := m; req_user := Some u; query_params := q; req_data := d |}.

(** A request as the test client sends it: no [Accept] header. *)
Definition mkenv (url : string) (m : HttpMethod) (u : option User)
    (q : QueryDict) (b : Payload) : environ :=
  {| PATH_INFO := url; REQUEST_METHOD := m; HTTP_ACCEPT := [any_media];
     HTTP_AUTHORIZATION := u; QUERY_STRING := q; wsgi_input := b |}.

(** Identity 1 owns the tags [alpha] and [beta] and two projects, both
    tagged [alpha]; identity 2 owns the tag [zeta] and one project. *)
Definition sample_db : DB :=
  {| tag_table := [ {| tag_id := 1; name := "alpha"; tag_user := 1 |};
                    {| tag_id := 2; name := "beta"; tag_user := 1 |};
                    {| tag_id := 3; name := "zeta"; tag_user := 2 |} ];
     tag_seq := 4;
     project_table :=
       [ {| id := 1; title := "P1"; description := "first"; price := 500;
            link := ""; user := 1; tags := {[ 1 ]} |};
         {| id := 2; title := "P2"; description := "second"; price := 700;
            link := "http://example.com"; user := 1; tags := {[ 1 ]} |};
         {| id := 3; title := "Q"; description := "other"; price := 100;
            link := ""; user := 2; tags := ∅ |} ];
     project_seq := 4 |}.

(** * Properties *)

Example int_of_str_samples :
  Py.int_of_str "1" = Some 1 ∧ Py.int_of_str " -1_0 " = Some (-10) ∧
  Py.int_of_str "007" = Some 7 ∧ Py.int_of_str "1__0" = None ∧
  Py.int_of_str "" = None ∧ Py.int_of_str "yes" = None ∧
  Py.int_of_str "- 1" = None ∧ Py.int_of_str "1_" = None.
Proof. repeat split; reflexivity. Qed.

(** ** Routing *)

Lemma urlpatterns_eq :
  urlpatterns =
    [tags_collection_pattern; projects_collection_pattern;
     projects_item_pattern].
Proof. reflexivity. Qed.

Lemma resolve_tags_collection :
  resolve (Collection "tags") = Some tags_collection_pattern.
Proof. reflexivity. Qed.

Lemma resolve_tags_item pk : resolve (Item "tags" pk) = None.
Proof. reflexivity. Qed.

Lemma resolve_projects_collection :
  resolve (Collection "projects") = Some projects_collection_pattern.
Proof. reflexivity. Qed.

Lemma resolve_projects_item pk :
  resolve (Item "projects" pk) = Some projects_item_pattern.
Proof. reflexivity. Qed.

(** Every path that resolves is one of the three registered URLs. *)
Lemma resolve_Some path u :
  resolve path = Some u →
  (path = Collection "tags" ∧ u = tags_collection_pattern)
  ∨ (path = Collection "projects" ∧ u = projects_collection_pattern)
  ∨ (∃ pk, path = Item "projects" pk ∧ u = projects_item_pattern).
Proof.
  unfold resolve. rewrite urlpatterns_eq. intros H.
  destruct path as [x | x pk]; cbn in H;
    repeat (case_bool_decide; cbn in H);
    repeat (case_decide; try done; cbn in H); simplify_eq; eauto 10.
Qed.

(** What each routed request runs. *)
Section routed.
Context `{!ModelFields} (request : Request) (db : DB) (u : User).
Hypothesis Hu : req_user request = Some u.

Lemma get_response_unauthenticated path request' :
  req_user request' = None → is_Some (resolve path) →
  get_response path request' db
  = (Responded {| status_code := 401; data := Detail |}, db).
Proof.
  intros Hn [p Hp]. unfold get_response, dispatch, initial.
  by rewrite Hp, Hn.
Qed.

Lemma get_response_tags_get :
  method request = GET →
  get_response (Collection "tags") request db
  = respond (TagViewSet.list_ u request db) db.
Proof.
  intros Hm. unfold get_response, dispatch, initial.
  by rewrite resolve_tags_collection, Hu, Hm.
Qed.

Lemma get_response_tags_post :
  method request = POST →
  get_response (Collection "tags") request db
  = respond (TagViewSet.create u request db) db.
Proof.
  intros Hm. unfold get_response, dispatch, initial.
  by rewrite resolve_tags_collection, Hu, Hm.
Qed.

Lemma get_response_projects_get :
  method request = GET →
  get_response (Collection "projects") request db
  = respond (ProjectViewSet.list_ ActList u db) db.
Proof.
  intros Hm. unfold get_response, dispatch, initial.
  by rewrite resolve_projects_collection, Hu, Hm.
Qed.

Lemma get_response_projects_post :
  method request = POST →
  get_response (Collection "projects") request db
  = respond (ProjectViewSet.create ActCreate u request db) db.
Proof.
  intros Hm. unfold get_response, dispatch, initial.
  by rewrite resolve_projects_collection, Hu, Hm.
Qed.

Lemma get_response_project_get pk :
  method request = GET →
  get_response (Item "projects" pk) request db
  = respond (ProjectViewSet.retrieve ActRetrieve u pk db) db.
Proof.
  intros Hm. unfold get_response, dispatch, initial.
  by rewrite resolve_projects_item, Hu, Hm.
Qed.

Lemma get_response_project_put pk :
  method request = PUT →
  get_response (Item "projects" pk) request db
  = respond (ProjectViewSet.update ActUpdate false u pk request db) db.
Proof.
  intros Hm. unfold get_response, dispatch, initial.
  by rewrite resolve_projects_item, Hu, Hm.
Qed.

Lemma get_response_project_patch pk :
  method request = PATCH →
  get_response (Item "projects" pk) request db
  = respond (ProjectViewSet.partial_update ActPartialUpdate u pk request db)
      db.
Proof.
  intros Hm. unfold get_response, dispatch, initial.
  by rewrite resolve_projects_item, Hu, Hm.
Qed.

Lemma get_response_project_delete pk :
  method request = DELETE →
  get_response (Item "projects" pk) request db
  = respond (ProjectViewSet.destroy u pk db) db.
Proof.
  intros Hm. unfold get_response, dispatch, initial.
  by rewrite resolve_projects_item, Hu, Hm.
Qed.

(** The methods that a URL does not map are refused. *)
Lemma get_response_collection_not_allowed x :
  x = "tags" ∨ x = "projects" →
  method request ∈ [PUT; PATCH; DELETE] →
  get_response (Collection x) request db
  = (Responded {| status_code := 405; data := Detail |}, db).
Proof.
  intros Hx Hm. unfold get_response, dispatch, initial.
  destruct Hx as [-> | ->];
    rewrite ?resolve_tags_collection, ?resolve_projects_collection, Hu;
    destruct (method request); try reflexivity; set_solver.
Qed.

Lemma get_response_project_post pk :
  method request = POST →
  get_response (Item "projects" pk) request db
  = (Responded {| status_code := 405; data := Detail |}, db).
Proof.
  intros Hm. unfold get_response, dispatch, initial.
  by rewrite resolve_projects_item, Hu, Hm.
Qed.

End routed.

(** A request for a single tag resolves to no view at all. *)
Lemma get_response_tag_item `{!ModelFields} pk request db :
  get_response (Item "tags" pk) request db
  = (Responded {| status_code := 404; data := Page404 |}, db).
Proof. reflexivity. Qed.

(** C9, as the code has it: the tag resource exposes the collection-level
    operations list and create and nothing else; no URL is registered for a
    single tag, so that retrieve, update, partial update and delete of a tag
    are routed to no action and answered by the resolver's 404. *)
Theorem tag_resource_operations `{!ModelFields} :
  (∀ a, a ∈ actions TagViewSet_ ↔ a = ActList ∨ a = ActCreate)
  ∧ (∀ request, action_of (Collection "tags") request
                = match method request with
                  | GET => Some ActList
                  | POST => Some ActCreate
                  | _ => None
                  end)
  ∧ (∀ pk request, action_of (Item "tags" pk) request = None)
  ∧ (∀ pk request db,
       get_response (Item "tags" pk) request db
       = (Responded {| status_code := 404; data := Page404 |}, db)).
Proof.
  split_and!.
  - intros a. change (actions TagViewSet_) with [ActList; ActCreate].
    set_solver.
  - intros request. unfold action_of. rewrite resolve_tags_collection.
    by destruct (method request).
  - done.
  - intros. apply get_response_tag_item.
Qed.

(** C9, as stated, fails: retrieve is not an action of the tag view set, and
    a GET for the existing tag 1 by its owner is not routed. *)
Lemma tag_item_not_exposed :
  (ActRetrieve ∉ actions TagViewSet_)
  ∧ (ActUpdate ∉ actions TagViewSet_)
  ∧ (ActPartialUpdate ∉ actions TagViewSet_)
  ∧ (ActDestroy ∉ actions TagViewSet_)
  ∧ tag_by_id sample_db 1
    = Some {| tag_id := 1; name := "alpha"; tag_user := 1 |}
  ∧ action_of (Item "tags" "1") (mkreq GET 1 [] (FormData [])) = None
  ∧ get_response (H := sample_fields) (Item "tags" "1")
      (mkreq GET 1 [] (FormData [])) sample_db
    = (Responded {| status_code := 404; data := Page404 |}, sample_db).
Proof.
  change (actions TagViewSet_) with [ActList; ActCreate].
  split_and!; try reflexivity; set_solver.
Qed.

(** Case analysis on the computations of the error monad in [H], the
    innermost first. *)
Ltac bind_cases H :=
  unfold mbind, Result_bind in H;
  repeat match type of H with
    | context [match ?x with Ok _ => _ | Raise _ => _ end] =>
        lazymatch x with
        | context [match _ with Ok _ => _ | Raise _ => _ end] => fail
        | _ => let E := fresh "E" in destruct x eqn:E; cbn in H
        end
    | context [let '(_, _) := ?x in _] =>
        let E := fresh "E" in destruct x eqn:E; cbn in H
    end.

(** C5: in the response to a project request, a project is represented in
    the detail shape (tags embedded as objects) if and only if the request
    is routed to the retrieve action; list, create, update and partial
    update answer in the write/list shape (tags as bare keys). *)
Theorem detail_shape_iff_retrieve `{!ModelFields} db path request resp db' :
  get_response path request db = (Responded resp, db') →
  Forall (λ r, shape r = DetailShape ↔
               action_of path request = Some ActRetrieve)
         (project_reprs (data resp)).
Proof.
  intros H0. unfold action_of.
  destruct (resolve path) as [p|] eqn:Hr; cbn.
  2:{ unfold get_response in H0. rewrite Hr in H0. simplify_eq.
      constructor. }
  destruct (req_user request) as [who|] eqn:Hu.
  2:{ rewrite get_response_unauthenticated in H0 by eauto.
      simplify_eq. constructor. }
  apply resolve_Some in Hr as [[-> ->] | [[-> ->] | (pk & -> & ->)]];
    destruct (method request) eqn:Hm; cbn.
  all: first
    [ rewrite (get_response_collection_not_allowed _ _ who) in H0
        by (eauto; rewrite Hm; set_solver)
    | rewrite (get_response_tags_get _ _ who) in H0 by done
    | rewrite (get_response_tags_post _ _ who) in H0 by done
    | rewrite (get_response_projects_get _ _ who) in H0 by done
    | rewrite (get_response_projects_post _ _ who) in H0 by done
    | rewrite (get_response_project_get _ _ who) in H0 by done
    | rewrite (get_response_project_post _ _ who) in H0 by done
    | rewrite (get_response_project_put _ _ who) in H0 by done
    | rewrite (get_response_project_patch _ _ who) in H0 by done
    | rewrite (get_response_project_delete _ _ who) in H0 by done ].
  all: unfold respond, TagViewSet.list_, TagViewSet.create,
         ProjectViewSet.list_, ProjectViewSet.create,
         ProjectViewSet.retrieve, ProjectViewSet.partial_update,
         ProjectViewSet.update, ProjectViewSet.destroy in H0.
  all: bind_cases H0;
    try match type of H0 with
      | context [handle_exception ?e] => destruct e; cbn in H0
      end;
    simplify_eq; cbn.
  all: repeat first
    [ by apply Forall_nil
    | apply Forall_cons; split; [by vm_compute |]
    | apply Forall_fmap, Forall_true; intros q; by vm_compute ].
Qed.

Lemma detail_shape_iff_retrieve_witness :
  Forall (λ r, shape r = DetailShape ↔
               action_of (Item "projects" "1") (mkreq GET 1 [] (FormData []))
               = Some ActRetrieve)
    [ {| pr_id := 1; pr_title := "P1"; pr_description := "first";
         pr_tags := Nested [ {| r_id := 1; r_name := "alpha" |} ];
         pr_price := 500; pr_link := "" |} ].
Proof.
  apply (detail_shape_iff_retrieve (H := sample_fields) sample_db
           (Item "projects" "1") (mkreq GET 1 [] (FormData []))
           {| status_code := 200;
              data := ProjectData
                {| pr_id := 1; pr_title := "P1"; pr_description := "first";
                   pr_tags := Nested [ {| r_id := 1; r_name := "alpha" |} ];
                   pr_price := 500; pr_link := "" |} |}
           sample_db).
  vm_compute. reflexivity.
Defined.

(** ** The [assigned_only] parameter *)

Lemma tag_list_response `{!ModelFields} db u request :
  req_user request = Some u → method request = GET →
  get_response (Collection "tags") request db
  = match BaseProjectAttrViewSet.assigned_only_param (query_params request) with
    | Ok n =>
        (Responded
           {| status_code := 200;
              data := TagListData
                (serializers.Tag_to_representation <$>
                 orm.evaluate_tags db
                   (orm.distinct
                      (orm.order_by orm.name_desc
                         (orm.filter_tag (orm.tag_user_eq u)
                            (if Py.bool_of_int n
                             then orm.filter_tag orm.recipe__isnull_False
                                    TagViewSet.queryset
                             else TagViewSet.queryset))))) |}, db)
    | Raise e => (handle_exception e, db)
    end.
Proof.
  intros Hu Hm. rewrite (get_response_tags_get _ _ u) by done.
  unfold TagViewSet.list_, BaseProjectAttrViewSet.get_queryset.
  by destruct (BaseProjectAttrViewSet.assigned_only_param _).
Qed.

(** ** Query sets *)

Lemma string_leb_trans (a b c : string) :
  String.leb a b = true → String.leb b c = true → String.leb a c = true.
Proof.
  unfold String.leb. revert b c.
  induction a as [|x a IH]; intros [|y b] [|z c]; cbn; try done.
  unfold Ascii.compare.
  destruct (N.compare_spec (N_of_ascii x) (N_of_ascii y)) as [Hxy|Hxy|Hxy];
    destruct (N.compare_spec (N_of_ascii y) (N_of_ascii z)) as [Hyz|Hyz|Hyz];
    destruct (N.compare_spec (N_of_ascii x) (N_of_ascii z)) as [Hxz|Hxz|Hxz];
    try done; try lia.
  apply IH.
Qed.

#[global] Instance name_ge_total : Total orm.name_ge.
Proof.
  intros t1 t2. unfold orm.name_ge.
  destruct (String.leb_total (name t1) (name t2)); auto.
Qed.

#[global] Instance name_ge_trans : Transitive orm.name_ge.
Proof.
  intros t1 t2 t3. unfold orm.name_ge. intros H12 H23.
  by apply (string_leb_trans _ (name t2)).
Qed.

Section tag_queries.
Context (db : DB).
Implicit Types (q : orm.TagQuerySet) (t : Tag).










End tag_queries.

(** ** The tag list *)




(** On the sample database: tag 1 is attached to two projects and comes
    once, tag 2 is attached to none and is left out. *)
Example assigned_only_tag_list_sample :
  (get_response (H := sample_fields) (Collection "tags")
     (mkreq GET 1 [("assigned_only", "1")] (FormData [])) sample_db).1
  = Responded
      {| status_code := 200;
         data := TagListData [ {| r_id := 1; r_name := "alpha" |} ] |}.
Proof. vm_compute. reflexivity. Qed.



Example tag_list_sample :
  (get_response (H := sample_fields) (Collection "tags")
     (mkreq GET 1 [] (FormData [])) sample_db).1
  = Responded
      {| status_code := 200;
         data := TagListData [ {| r_id := 2; r_name := "beta" |};
                               {| r_id := 1; r_name := "alpha" |} ] |}.
Proof. vm_compute. reflexivity. Qed.

(** ** The integer conversion of [assigned_only] *)



(** What [int()] takes and what it refuses: signs, white space and single
    underscores, the decimal digits and the spaces of every script, and no
    more than 4300 digits. *)
Example int_of_str_unicode_samples :
  Py.int_of_str arabic_indic_three = Some 3
  ∧ Py.int_of_str (arabic_indic_three ++ "_1") = Some 31
  ∧ Py.int_of_str (no_break_space ++ "-7" ++ no_break_space) = Some (-7)
  ∧ Py.int_of_str (String "028" "1") = None
  ∧ Py.int_of_str (String "194" (String "178" "")) = None
  ∧ Py.int_of_str "1.0" = None ∧ Py.int_of_str "0x10" = None
  ∧ Py.int_of_str (ones 4300 ++ " ") ≠ None
  ∧ Py.int_of_str (ones 4301) = None
  ∧ Py.int_of_str ("-" ++ ones 4300) ≠ None.
Proof. vm_compute. split_and!; done. Qed.

(** The cases of C10 on the sample database, where identity 1 owns the tag
    [alpha], attached to two projects, and the tag [beta], attached to
    none: ["2"], [" +2 "] and U+0663 filter as ["1"] does, ["00"] and
    ["-0"] do not filter, and ["yes"], ["1.0"], the empty string and a
    string of 4301 digits raise. *)
Example assigned_only_samples :
  let tags_of s :=
    (get_response (H := sample_fields) (Collection "tags")
       (mkreq GET 1 [("assigned_only", s)] (FormData [])) sample_db).1 in
  let assigned :=
    Responded {| status_code := 200;
                 data := TagListData [ {| r_id := 1; r_name := "alpha" |} ] |} in
  let all :=
    Responded {| status_code := 200;
                 data := TagListData [ {| r_id := 2; r_name := "beta" |};
                                       {| r_id := 1; r_name := "alpha" |} ] |} in
  tags_of "1" = assigned ∧ tags_of "2" = assigned ∧ tags_of " +2 " = assigned
  ∧ tags_of "-1" = assigned ∧ tags_of arabic_indic_three = assigned
  ∧ tags_of (ones 4300) = assigned
  ∧ tags_of "0" = all ∧ tags_of "00" = all ∧ tags_of "-0" = all
  ∧ tags_of "yes" = Unhandled ValueError
  ∧ tags_of "1.0" = Unhandled ValueError
  ∧ tags_of "" = Unhandled ValueError
  ∧ tags_of "True" = Unhandled ValueError
  ∧ tags_of (ones 4301) = Unhandled ValueError.
Proof. vm_compute. split_and!; done. Qed.

(** ** Looking up one project *)

Lemma filter_none {A : Type} (P : A → Prop) `{!∀ x, Decision (P x)}
    (l : list A) :
  (∀ x, x ∈ l → ¬ P x) → filter P l = [].
Proof.
  induction l as [|y l IH]; intros Hno; [done|].
  rewrite filter_cons, decide_False by (apply Hno; left).
  apply IH. intros x Hx. apply Hno. by right.
Qed.

Lemma filter_all {A : Type} (P : A → Prop) `{!∀ x, Decision (P x)}
    (l : list A) :
  (∀ x, x ∈ l → P x) → filter P l = l.
Proof.
  induction l as [|y l IH]; intros Hall; [done|].
  rewrite filter_cons, decide_True by (apply Hall; left).
  f_equal. apply IH. intros x Hx. apply Hall. by right.
Qed.

Lemma filter_key_unique {A : Type} (f : A → Z) (l : list A) (x : A) :
  NoDup (f <$> l) → x ∈ l → filter (λ y, f y = f x) l = [x].
Proof.
  induction l as [|y l IH]; intros Hnd Hx; [by apply elem_of_nil in Hx|].
  rewrite fmap_cons in Hnd. apply NoDup_cons in Hnd as [Hy Hnd].
  rewrite filter_cons. apply elem_of_cons in Hx as [<- | Hx].
  - rewrite decide_True by done. f_equal.
    apply filter_none. intros z Hz Heq.
    apply Hy. rewrite <- Heq. by apply list_elem_of_fmap_2.
  - rewrite decide_False; [by apply IH|].
    intros Heq. apply Hy. rewrite Heq. by apply list_elem_of_fmap_2.
Qed.

Lemma key_unique {A : Type} (f : A → Z) (l : list A) (x y : A) :
  NoDup (f <$> l) → x ∈ l → y ∈ l → f x = f y → x = y.
Proof.
  intros Hnd Hx Hy Heq.
  assert (y ∈ filter (λ z, f z = f x) l) as Hin
    by by apply list_elem_of_filter.
  rewrite filter_key_unique in Hin by done. set_solver.
Qed.

Section get_object.
Context (db : DB) (u : User).
Hypothesis Hwf : wf_db db.

(** The rows that [get_object] chooses from. *)
Lemma evaluate_projects_pk k :
  orm.evaluate_projects db
    (orm.filter_project (orm.project_pk_eq k) (ProjectViewSet.get_queryset u))
  = filter (λ p, user p = u ∧ id p = k) (project_table db).
Proof.
  unfold orm.evaluate_projects. apply list_filter_iff. intros p. cbn.
  rewrite !andb_true_iff, !bool_decide_eq_true. tauto.
Qed.


Lemma get_object_own p pk :
  p ∈ project_table db → user p = u → Py.int_of_str pk = Some (id p) →
  ProjectViewSet.get_object u pk db = Ok p.
Proof.
  intros Hp Hu Hpk. unfold ProjectViewSet.get_object, orm.get_project.
  cbn [orm.to_pk]. rewrite Hpk, evaluate_projects_pk.
  rewrite <- list_filter_filter,
    (filter_key_unique id _ p) by (done || apply Hwf).
  rewrite filter_cons, decide_True by done. done.
Qed.

Lemma get_object_foreign p pk :
  p ∈ project_table db → user p ≠ u → Py.int_of_str pk = Some (id p) →
  ProjectViewSet.get_object u pk db = Raise Http404.
Proof.
  intros Hp Hu Hpk. unfold ProjectViewSet.get_object, orm.get_project.
  cbn [orm.to_pk]. rewrite Hpk, evaluate_projects_pk.
  rewrite <- list_filter_filter,
    (filter_key_unique id _ p) by (done || apply Hwf).
  rewrite filter_cons, decide_False by done. done.
Qed.

Lemma get_object_missing pk :
  (∀ p, p ∈ project_table db → Py.int_of_str pk ≠ Some (id p)) →
  ProjectViewSet.get_object u pk db = Raise Http404.
Proof.
  intros Hno. unfold ProjectViewSet.get_object, orm.get_project.
  cbn [orm.to_pk]. destruct (Py.int_of_str pk) as [k|] eqn:Hpk; [|done].
  rewrite evaluate_projects_pk.
  replace (filter _ (project_table db)) with (@nil Project); [done|].
  symmetry. apply filter_none.
  intros p Hp [_ Hk]. apply (Hno p Hp). by rewrite Hk.
Qed.

(** [get_object] finds the caller's own row or raises [Http404]. *)
Lemma get_object_cases pk :
  (∃ p, ProjectViewSet.get_object u pk db = Ok p
        ∧ p ∈ project_table db ∧ user p = u
        ∧ Py.int_of_str pk = Some (id p))
  ∨ ProjectViewSet.get_object u pk db = Raise Http404.
Proof.
  destruct (decide (Exists (λ p, Py.int_of_str pk = Some (id p))
                      (project_table db))) as [Hex|Hno];
    rewrite Exists_exists in *.
  - destruct Hex as (p & Hp & Hpk). destruct (decide (user p = u)).
    + left. exists p. split_and!; try done. by apply get_object_own.
    + right. by apply (get_object_foreign p).
  - right. apply get_object_missing. intros p Hp Hpk. apply Hno. eauto.
Qed.

End get_object.

(** ** Ownership *)


Lemma sample_db_wf : wf_db sample_db.
Proof. apply (bool_decide_unpack _). by vm_compute. Qed.


(** Identity 2 asks for project 1 of identity 1, in every way, and for a
    project that does not exist: the answers are the same. *)
Example foreign_project_samples :
  let ask m pk :=
    get_response (H := sample_fields) (Item "projects" pk)
      (mkreq m 2 [] (JsonData [("title", DStr "mine")])) sample_db in
  ask GET "1" = ask GET "99" ∧ ask PUT "1" = ask PUT "99"
  ∧ ask PATCH "1" = ask PATCH "99" ∧ ask DELETE "1" = ask DELETE "99"
  ∧ ask DELETE "1"
    = (Responded {| status_code := 404; data := Detail |}, sample_db).
Proof. vm_compute. done. Qed.

(** C1, as stated, fails for tags: a tag of A is not indistinguishable from
    a non-existent one. The [tags] field of [ProjectSerializer] looks its
    references up among all the tags, so identity 2 creates a project with
    the tag 2 of identity 1, where the key 9 of no tag is refused with 400;
    the retrieve of the new project shows the name of the tag to
    identity 2, and the tag enters the [assigned_only] list of identity 1,
    none of whose projects carries it. *)
Theorem foreign_tag_distinguishable :
  let post k :=
    get_response (H := sample_fields) (Collection "projects")
      (mkreq POST 2 []
         (JsonData [("title", DStr "mine"); ("description", DStr "d");
                    ("price", DInt 5); ("tags", DList [DInt k])]))
      sample_db in
  let assigned db :=
    (get_response (H := sample_fields) (Collection "tags")
       (mkreq GET 1 [("assigned_only", "1")] (FormData [])) db).1 in
  tag_by_id sample_db 2 = Some {| tag_id := 2; name := "beta"; tag_user := 1 |}
  ∧ tag_by_id sample_db 9 = None
  ∧ status (post 2).1 = Some 201
  ∧ post 9 = (Responded {| status_code := 400; data := Detail |}, sample_db)
  ∧ (get_response (H := sample_fields) (Item "projects" "4")
       (mkreq GET 2 [] (FormData [])) (post 2).2).1
    = Responded
        {| status_code := 200;
           data := ProjectData
             {| pr_id := 4; pr_title := "mine"; pr_description := "d";
                pr_tags := Nested [ {| r_id := 2; r_name := "beta" |} ];
                pr_price := 500; pr_link := "" |} |}
  ∧ assigned sample_db
    = Responded
        {| status_code := 200;
           data := TagListData [ {| r_id := 1; r_name := "alpha" |} ] |}
  ∧ assigned (post 2).2
    = Responded
        {| status_code := 200;
           data := TagListData [ {| r_id := 2; r_name := "beta" |};
                                 {| r_id := 1; r_name := "alpha" |} ] |}.
Proof. vm_compute. split_and!; done. Qed.

(** ** The project list *)


(** C7 on the code: identity 1 creates three projects, P1, P2 and P3, in
    this order, and lists its projects. [get_queryset] filters on the owner
    and applies no [order_by], so the list comes in the order of the table:
    [P1, P2, P3], where the claim (and [test_retrieve_projects], which
    compares with [order_by('-id')]) says [P3, P2, P1]. *)
Theorem project_list_creation_order :
  let post t db :=
    (get_response (H := sample_fields) (Collection "projects")
       (mkreq POST 1 []
          (FormData [("title", t); ("description", "d"); ("price", "5")]))
       db).2 in
  let db3 := post "P3" (post "P2" (post "P1" empty_db)) in
  ∃ l, (get_response (H := sample_fields) (Collection "projects")
          (mkreq GET 1 [] (FormData [])) db3).1
       = Responded {| status_code := 200; data := ProjectListData l |}
     ∧ pr_title <$> l = ["P1"; "P2"; "P3"]
     ∧ pr_id <$> l = [1; 2; 3]
     ∧ pr_id <$> l ≠ [3; 2; 1].
Proof. eexists. vm_compute. split_and!; done. Qed.

(** ** Validation of the [tags] field *)

Lemma evaluate_tags_all db :
  orm.evaluate_tags db orm.Tag_objects_all = tag_table db.
Proof.
  unfold orm.evaluate_tags, orm.tag_from.
  change (orm.joins_recipe orm.Tag_objects_all) with false.
  change (orm.tq_distinct orm.Tag_objects_all) with false.
  change (orm.tq_order_by orm.Tag_objects_all) with (@None orm.TagOrdering).
  by apply filter_all.
Qed.

Section tags_field.
Context (db : DB).
Hypothesis Hwf : wf_db db.

(** One reference: it is valid exactly when it names a tag, whoever owns
    the tag. *)
Lemma tags_child_cases item :
  (∃ t, serializers.tags_child_run_validation db item = serializers.Valid t
        ∧ t ∈ tag_table db ∧ orm.to_pk item = Some (tag_id t))
  ∨ (serializers.tags_child_run_validation db item = serializers.Invalid
     ∧ ¬ names_tag db item).
Proof.
  unfold serializers.tags_child_run_validation, orm.get_tag, names_tag.
  rewrite Exists_exists.
  destruct (orm.to_pk item) as [k|] eqn:Hk.
  2:{ right. split; [done|]. by intros (t & _ & ?). }
  rewrite evaluate_tags_all.
  destruct (decide (Exists (λ t, tag_id t = k) (tag_table db))) as [Hex|Hno];
    rewrite Exists_exists in *.
  - destruct Hex as (t & Ht & <-). left. exists t.
    rewrite (filter_key_unique tag_id) by (done || apply Hwf). done.
  - right. rewrite filter_none; [split; [done|]|].
    + intros (t & Ht & Heq). apply Hno. exists t. split; congruence.
    + intros t Ht Heq. apply Hno. eauto.
Qed.

(** The whole list: it is valid exactly when every reference names a tag,
    and then the validated tags have the keys that the references denote. *)
Lemma many_cases items :
  (∃ ts, serializers.many (serializers.tags_child_run_validation db <$> items)
         = serializers.Valid ts
         ∧ Forall (names_tag db) items
         ∧ serializers.tag_keys ts = reference_set items)
  ∨ (serializers.many (serializers.tags_child_run_validation db <$> items)
     = serializers.Invalid
     ∧ ¬ Forall (names_tag db) items).
Proof.
  induction items as [|item items IH].
  - left. exists []. by split_and!.
  - rewrite fmap_cons. cbn [serializers.many].
    destruct (tags_child_cases item) as [(t & -> & Ht & Hk) | [-> Hno]].
    2:{ right. split; [done|]. rewrite Forall_cons. tauto. }
    destruct IH as [(ts & -> & Hall & Hset) | [-> Hno]].
    + left. exists (t :: ts). split_and!; [done| |].
      * apply Forall_cons. split; [|done]. apply Exists_exists. eauto.
      * unfold serializers.tag_keys, reference_set in *. cbn.
        rewrite Hk. cbn. by rewrite Hset.
    + right. split; [done|]. rewrite Forall_cons. tauto.
Qed.

Lemma tags_get_value_supplied partial d items :
  supplied_tags d = Some items →
  serializers.tags_get_value partial d = Some (DList items).
Proof.
  unfold supplied_tags, serializers.tags_get_value. destruct d as [q|j].
  - case_bool_decide; [|done]. intros. by simplify_eq.
  - destruct (dict_get "tags" j) as [[]|]; intros; by simplify_eq.
Qed.

End tags_field.

(** ** Validation of a project *)

Lemma run_validation_failure {A : Type} o partial (conv : Data → option A) v :
  serializers.failure (serializers.run_validation o partial conv v) = None.
Proof.
  unfold serializers.run_validation.
  destruct v as [x|]; [by destruct (conv x)|].
  destruct partial; [done|]. by destruct (serializers.required o).
Qed.

(** A key that the data does not supply gives the empty value on a partial
    update. *)
Lemma get_value_absent o name d :
  supplies name d = false →
  serializers.get_value o true name d = None.
Proof.
  unfold supplies, serializers.get_value. destruct d as [q|j]; intros Hs;
    apply bool_decide_eq_false in Hs.
  - assert (QueryDict.getlist name q = []) as Hg.
    { unfold QueryDict.getlist. rewrite filter_none; [done|].
      intros [k x] Hin Hk. apply Hs. apply list_elem_of_fmap.
      exists (k, x). cbn in *. by split. }
    unfold QueryDict.get. by rewrite Hg.
  - unfold dict_get. rewrite filter_none; [done|].
    intros [k x] Hin Hk. apply Hs. apply list_elem_of_fmap.
    exists (k, x). cbn in *. by split.
Qed.

Lemma tags_get_value_absent_json j :
  supplies "tags" (JsonData j) = false →
  ∀ partial, serializers.tags_get_value partial (JsonData j) = None.
Proof.
  intros Hs%bool_decide_eq_false partial. cbn. unfold dict_get.
  rewrite filter_none; [done|].
  intros [k x] Hin Hk. apply Hs. apply list_elem_of_fmap.
  exists (k, x). cbn in *. by split.
Qed.

Lemma tags_get_value_absent_form q :
  supplies "tags" (FormData q) = false →
  serializers.tags_get_value false (FormData q) = Some (DList []).
Proof.
  intros Hs. pose proof Hs as Hs'%bool_decide_eq_false. cbn in *.
  rewrite andb_false_r. unfold QueryDict.getlist.
  rewrite filter_none; [done|].
  intros [k x] Hin Hk. apply Hs'. apply list_elem_of_fmap.
  exists (k, x). cbn in *. by split.
Qed.

Section project_validation.
Context `{!ModelFields} (db : DB).
Hypothesis Hwf : wf_db db.

Lemma tags_result_no_failure partial d :
  serializers.failure (tags_result db partial d) = None.
Proof.
  unfold tags_result, serializers.tags_run_validation.
  destruct (serializers.tags_get_value partial d) as [[| | | |items]|];
    try done; [|by destruct partial].
  by destruct (many_cases db Hwf items) as [(ts & -> & _) | [-> _]].
Qed.

(** Validation returns the validated data or raises [ValidationError]; when
    it returns, [tags] is in the data exactly when the field was valid. *)
Lemma to_internal_value_cases partial d :
  (∃ v, serializers.to_internal_value serializers.ProjectSerializer db
          partial d = Ok v
        ∧ serializers.v_tags v = serializers.value (tags_result db partial d)
        ∧ serializers.is_invalid (tags_result db partial d) = false)
  ∨ serializers.to_internal_value serializers.ProjectSerializer db partial d
    = Raise ValidationError.
Proof.
  unfold serializers.to_internal_value. fold (tags_result db partial d).
  rewrite !run_validation_failure, tags_result_no_failure. cbn.
  destruct (serializers.is_invalid (tags_result db partial d)) eqn:Hg.
  - right. by rewrite !orb_true_r.
  - match goal with
    | |- context [if ?b then _ else _] => destruct b eqn:Hb
    end; [by right|]. left. eexists. by split_and!.
Qed.

Lemma to_internal_value_tags_invalid partial d :
  tags_result db partial d = serializers.Invalid →
  serializers.to_internal_value serializers.ProjectSerializer db partial d
  = Raise ValidationError.
Proof.
  intros Hg. destruct (to_internal_value_cases partial d)
    as [(v & _ & _ & Hi) | ?]; [|done].
  by rewrite Hg in Hi.
Qed.

End project_validation.

(** ** The effect of a write on the table *)

Lemma find_cons {A : Type} (P : A → Prop) `{!∀ x, Decision (P x)} x l :
  snd <$> list_find P (x :: l)
  = if decide (P x) then Some x else snd <$> list_find P l.
Proof.
  cbn. case_decide; [done|]. by destruct (list_find P l) as [[i y]|].
Qed.

Lemma find_replace (k : Z) (p' : Project) (l : list Project) :
  id p' = k →
  (∃ x, x ∈ l ∧ id x = k) →
  snd <$> list_find (λ p, id p = k)
            ((λ r, if decide (id r = k) then p' else r) <$> l)
  = Some p'.
Proof.
  intros Hp'. induction l as [|y l IH]; intros (x & Hx & Hk).
  - by apply elem_of_nil in Hx.
  - rewrite fmap_cons, find_cons. destruct (decide (id y = k)) as [Hy|Hy].
    + by rewrite decide_True.
    + rewrite decide_False by done. apply IH.
      apply elem_of_cons in Hx as [-> | Hx]; [done|]. eauto.
Qed.

Lemma find_replace_other (k k' : Z) (p' : Project) (l : list Project) :
  id p' = k → k' ≠ k →
  snd <$> list_find (λ p, id p = k')
            ((λ r, if decide (id r = k) then p' else r) <$> l)
  = snd <$> list_find (λ p, id p = k') l.
Proof.
  intros Hp' Hne. induction l as [|y l IH]; [done|].
  rewrite fmap_cons, !find_cons, IH.
  destruct (decide (id y = k)) as [Hy|Hy]; [|done].
  rewrite !decide_False by congruence. done.
Qed.

Lemma find_app_fresh (k : Z) (p : Project) (l : list Project) :
  id p = k → Forall (λ x, id x < k) l →
  snd <$> list_find (λ x, id x = k) (l ++ [p]) = Some p.
Proof.
  intros Hp Hl. induction Hl as [|y l Hy Hl IH].
  - cbn. by rewrite decide_True.
  - rewrite <- app_comm_cons, find_cons, decide_False by lia. done.
Qed.

Lemma find_app_old (k : Z) (p : Project) (l : list Project) :
  id p ≠ k →
  snd <$> list_find (λ x, id x = k) (l ++ [p])
  = snd <$> list_find (λ x, id x = k) l.
Proof.
  intros Hp. induction l as [|y l IH].
  - cbn. by rewrite decide_False.
  - rewrite <- app_comm_cons, !find_cons, IH. done.
Qed.

(** [serializers.update] replaces the row of the instance and nothing
    else. *)
Lemma update_effect db instance v :
  instance ∈ project_table db →
  let '(p', db') := serializers.update instance v db in
  project_by_id db' (id instance) = Some p'
  ∧ (∀ k, k ≠ id instance → project_by_id db' k = project_by_id db k)
  ∧ tag_table db' = tag_table db.
Proof.
  intros Hin. unfold serializers.update, project_by_id. cbn. split_and!.
  - apply find_replace; [done|eauto].
  - intros k Hk. by apply find_replace_other.
  - done.
Qed.

(** [serializers.create] appends a row with the next key. *)
Lemma create_effect db v u :
  wf_db db →
  let '(p, db') := serializers.create v u db in
  project_by_id db' (id p) = Some p
  ∧ id p = project_seq db ∧ user p = u
  ∧ (∀ k, k ≠ id p → project_by_id db' k = project_by_id db k)
  ∧ tag_table db' = tag_table db.
Proof.
  intros Hwf. unfold serializers.create, project_by_id. cbn. split_and!.
  - apply find_app_fresh; [done|apply Hwf].
  - done.
  - done.
  - intros k Hk. apply find_app_old. cbn. done.
  - done.
Qed.

(** ** Updating a project *)




(** The scenario of [test_parcial_update_recipe], in both encodings: the
    tags of project 2 go from [{1}] to [{2}]. *)
Example partial_update_samples :
  let patch d :=
    (get_response (H := sample_fields) (Item "projects" "2")
       (mkreq PATCH 1 [] d) sample_db) in
  patch (FormData [("tags", "2")]) = patch (JsonData [("tags", DList [DInt 2])])
  ∧ (patch (FormData [("tags", "2")])).1
    = Responded
        {| status_code := 200;
           data := ProjectData
             {| pr_id := 2; pr_title := "P2"; pr_description := "second";
                pr_tags := PkList [2]; pr_price := 700;
                pr_link := "http://example.com" |} |}.
Proof. vm_compute. done. Qed.

Section writes.
Context `{!ModelFields} (db : DB) (u : User) (request : Request).
Hypothesis Hwf : wf_db db.
Hypothesis Hu : req_user request = Some u.

(** The [tags] field when the request supplies a list of references. *)
Lemma tags_result_supplied partial items :
  supplied_tags (req_data request) = Some items →
  (∃ ts, tags_result db partial (req_data request) = serializers.Valid ts
         ∧ Forall (names_tag db) items
         ∧ serializers.tag_keys ts = reference_set items)
  ∨ (tags_result db partial (req_data request) = serializers.Invalid
     ∧ ¬ Forall (names_tag db) items).
Proof.
  intros Hs. unfold tags_result.
  rewrite (tags_get_value_supplied partial _ items) by done. cbn.
  apply (many_cases db Hwf).
Qed.

(** The [tags] field of a full update when the request has no [tags]: the
    empty list in form data, a missing required field in JSON. *)
Lemma tags_result_omitted :
  supplies "tags" (req_data request) = false →
  match req_data request with
  | FormData _ =>
      tags_result db false (req_data request) = serializers.Valid []
  | JsonData _ =>
      tags_result db false (req_data request) = serializers.Invalid
  end.
Proof.
  intros Hs. unfold tags_result. destruct (req_data request) as [q|j].
  - by rewrite tags_get_value_absent_form.
  - by rewrite tags_get_value_absent_json.
Qed.

(** What an update does, by cases: the object is not the caller's (404),
    the data is refused (400), or the validated data is written. *)
Lemma update_cases action partial pk :
  ProjectViewSet.get_serializer_class action = serializers.ProjectSerializer →
  (ProjectViewSet.get_object u pk db = Raise Http404
   ∧ respond (ProjectViewSet.update action partial u pk request db) db
     = (Responded {| status_code := 404; data := Detail |}, db))
  ∨ (∃ p, ProjectViewSet.get_object u pk db = Ok p
          ∧ p ∈ project_table db ∧ user p = u
          ∧ Py.int_of_str pk = Some (id p)
          ∧ ((serializers.to_internal_value serializers.ProjectSerializer db
                partial (req_data request) = Raise ValidationError
              ∧ respond (ProjectViewSet.update action partial u pk request db)
                  db
                = (Responded {| status_code := 400; data := Detail |}, db))
             ∨ (∃ v resp db' p',
                  serializers.to_internal_value serializers.ProjectSerializer
                    db partial (req_data request) = Ok v
                  ∧ serializers.v_tags v
                    = serializers.value
                        (tags_result db partial (req_data request))
                  ∧ serializers.is_invalid
                      (tags_result db partial (req_data request)) = false
                  ∧ respond
                      (ProjectViewSet.update action partial u pk request db)
                      db
                    = (Responded resp, db')
                  ∧ status_code resp = 200
                  ∧ project_by_id db' (id p) = Some p'
                  ∧ tags p'
                    = from_option serializers.tag_keys (tags p)
                        (serializers.v_tags v)))).
Proof.
  intros Hcls. unfold ProjectViewSet.update. rewrite Hcls.
  destruct (get_object_cases db u Hwf pk)
    as [(p & Hget & Hp & Hpu & Hpk) | Hget]; rewrite Hget; cbn.
  2:{ by left. }
  right. exists p. split_and!; try done.
  destruct (to_internal_value_cases db Hwf partial (req_data request))
    as [(v & Hv & Hvt & Hvi) | Hv]; rewrite Hv; cbn.
  2:{ by left. }
  right. pose proof (update_effect db p v Hp) as Heff.
  unfold serializers.update in Heff. cbn in Heff.
  destruct Heff as (Hfind & _ & _).
  eexists v, _, _, _. split_and!; try done.
Qed.

End writes.

(** C3, as the code has it: a full update (PUT) whose data has no [tags]
    is accepted only in a form encoding, and then the tag set of the
    project is empty afterwards; in JSON the missing [tags] is a missing
    required field, the update is refused and nothing changes. *)
Theorem full_update_without_tags `{!ModelFields} db u request pk :
  wf_db db → req_user request = Some u → method request = PUT →
  supplies "tags" (req_data request) = false →
  ∃ resp db',
    get_response (Item "projects" pk) request db = (Responded resp, db')
    ∧ (status_code resp = 200 →
         (∃ q, req_data request = FormData q)
         ∧ ∃ p p', p ∈ project_table db ∧ user p = u
                   ∧ Py.int_of_str pk = Some (id p)
                   ∧ project_by_id db' (id p) = Some p' ∧ tags p' = ∅)
    ∧ (status_code resp ≠ 200 →
         db' = db ∧ (status_code resp = 400 ∨ status_code resp = 404))
    ∧ (∀ j, req_data request = JsonData j →
            status_code resp ≠ 200 ∧ db' = db).
Proof.
  intros Hwf Hu Hm Hs.
  rewrite (get_response_project_put _ _ u) by done.
  pose proof (tags_result_omitted db request Hs) as Hg.
  destruct (update_cases db u request Hwf ActUpdate false pk eq_refl)
    as [[_ ->] | (p & _ & Hp & Hpu & Hpk & [[_ ->] | Hok])].
  - eexists _, _. split; [done|]. cbn. split_and!; try done; auto.
  - eexists _, _. split; [done|]. cbn. split_and!; try done; auto.
  - destruct Hok as (v & resp & db' & p' & _ & Hvt & Hvi & -> & Hst & Hf & Ht).
    exists resp, db'. split; [done|].
    destruct (req_data request) as [q|j] eqn:Hd.
    + rewrite Hg in Hvt. cbn in Hvt. rewrite Hvt in Ht. cbn in Ht.
      split_and!; try done. intros _. split; [by eauto|].
      exists p, p'. by split_and!.
    + rewrite Hg in Hvi. done.
Qed.

Lemma full_update_without_tags_witness :
  let request :=
    mkreq PUT 1 []
      (FormData [("title", "Massive RPG"); ("description", "fantasy");
                 ("price", "5000")]) in
  ∃ resp db',
    get_response (H := sample_fields) (Item "projects" "1") request sample_db
    = (Responded resp, db')
    ∧ (status_code resp = 200 →
         (∃ q, req_data request = FormData q)
         ∧ ∃ p p', p ∈ project_table sample_db ∧ user p = 1
                   ∧ Py.int_of_str "1" = Some (id p)
                   ∧ project_by_id db' (id p) = Some p' ∧ tags p' = ∅)
    ∧ (status_code resp ≠ 200 →
         db' = sample_db ∧ (status_code resp = 400 ∨ status_code resp = 404))
    ∧ (∀ j, req_data request = JsonData j →
            status_code resp ≠ 200 ∧ db' = sample_db).
Proof.
  apply (full_update_without_tags (H := sample_fields) sample_db 1
           (mkreq PUT 1 []
              (FormData [("title", "Massive RPG"); ("description", "fantasy");
                         ("price", "5000")])) "1").
  - apply (bool_decide_unpack _). by vm_compute.
  - reflexivity.
  - reflexivity.
  - reflexivity.
Defined.

(** The scenario of [test_full_update_project], form-encoded as the test
    client sends it: project 1 had the tag 1 and has no tag afterwards. *)
Example full_update_form_sample :
  let request :=
    mkreq PUT 1 []
      (FormData [("title", "Massive RPG"); ("description", "fantasy");
                 ("price", "5000")]) in
  let out :=
    get_response (H := sample_fields) (Item "projects" "1") request
      sample_db in
  status out.1 = Some 200
  ∧ project_by_id out.2 1
    = Some {| id := 1; title := "Massive RPG"; description := "fantasy";
              price := 500000; link := ""; user := 1; tags := ∅ |}.
Proof. vm_compute. done. Qed.

(** C3, as stated, fails: the same full update in JSON, without [tags], is
    answered 400 and project 1 keeps its tag. *)
Lemma full_update_json_keeps_tags :
  let request :=
    mkreq PUT 1 []
      (JsonData [("title", DStr "Massive RPG");
                 ("description", DStr "fantasy"); ("price", DInt 5000)]) in
  let out :=
    get_response (H := sample_fields) (Item "projects" "1") request
      sample_db in
  supplies "tags" (req_data request) = false
  ∧ out = (Responded {| status_code := 400; data := Detail |}, sample_db)
  ∧ tags <$> project_by_id out.2 1 = Some {[ 1 ]}
  ∧ tags <$> project_by_id out.2 1 ≠ Some ∅.
Proof. vm_compute. split_and!; try done. Qed.

(** ** Creating a project *)

Lemma create_cases `{!ModelFields} db u request :
  wf_db db →
  (serializers.to_internal_value serializers.ProjectSerializer db false
     (req_data request) = Raise ValidationError
   ∧ respond (ProjectViewSet.create ActCreate u request db) db
     = (Responded {| status_code := 400; data := Detail |}, db))
  ∨ (∃ v resp db' p,
       serializers.to_internal_value serializers.ProjectSerializer db false
         (req_data request) = Ok v
       ∧ serializers.v_tags v
         = serializers.value (tags_result db false (req_data request))
       ∧ serializers.is_invalid (tags_result db false (req_data request))
         = false
       ∧ respond (ProjectViewSet.create ActCreate u request db) db
         = (Responded resp, db')
       ∧ status_code resp = 201
       ∧ project_by_id db' (project_seq db) = Some p
       ∧ user p = u
       ∧ tags p = from_option serializers.tag_keys ∅ (serializers.v_tags v)).
Proof.
  intros Hwf. unfold ProjectViewSet.create.
  change (ProjectViewSet.get_serializer_class ActCreate)
    with serializers.ProjectSerializer.
  destruct (to_internal_value_cases db Hwf false (req_data request))
    as [(v & Hv & Hvt & Hvi) | Hv]; rewrite Hv; cbn.
  2:{ by left. }
  right. pose proof (create_effect db v u Hwf) as Heff.
  unfold serializers.create in Heff. cbn in Heff.
  destruct Heff as (Hfind & _ & _ & _ & _).
  eexists v, _, _, _. split_and!; try done.
Qed.

(** C2, as the code has it: when a create, a full update or a partial
    update of a project supplies [tags] and is accepted, the tag set of the
    project is afterwards exactly the set of the supplied references; the
    request is refused with a validation error (400), or with 404 when the
    project is not the caller's, whenever a supplied reference names no
    existing tag. Who owns the tag is not looked at. A refused request
    changes nothing. *)
Theorem supplied_tags_replace `{!ModelFields} db u request items :
  wf_db db → req_user request = Some u →
  supplied_tags (req_data request) = Some items →
  (method request = POST →
     ∃ resp db',
       get_response (Collection "projects") request db = (Responded resp, db')
       ∧ (status_code resp = 201 →
            Forall (names_tag db) items
            ∧ ∃ p, project_by_id db' (project_seq db) = Some p
                   ∧ user p = u ∧ tags p = reference_set items)
       ∧ (status_code resp ≠ 201 → status_code resp = 400 ∧ db' = db)
       ∧ (¬ Forall (names_tag db) items → status_code resp = 400))
  ∧ (method request = PUT ∨ method request = PATCH →
     ∀ pk, ∃ resp db',
       get_response (Item "projects" pk) request db = (Responded resp, db')
       ∧ (status_code resp = 200 →
            Forall (names_tag db) items
            ∧ ∃ p p', p ∈ project_table db ∧ user p = u
                      ∧ Py.int_of_str pk = Some (id p)
                      ∧ project_by_id db' (id p) = Some p'
                      ∧ tags p' = reference_set items)
       ∧ (status_code resp ≠ 200 →
            (status_code resp = 400 ∨ status_code resp = 404) ∧ db' = db)
       ∧ (¬ Forall (names_tag db) items → status_code resp ≠ 200)).
Proof.
  intros Hwf Hu Hs. split.
  - intros Hm. rewrite (get_response_projects_post _ _ u) by done.
    destruct (create_cases db u request Hwf)
      as [[_ ->] | (v & resp & db' & p & _ & Hvt & Hvi & -> & Hst & Hf & Hpu & Ht)].
    + eexists _, _. split; [done|]. cbn. by split_and!.
    + exists resp, db'. split; [done|].
      destruct (tags_result_supplied db request Hwf false items Hs)
        as [(ts & Hg & Hall & Hset) | [Hg Hno]]; rewrite Hg in *; [|done].
      rewrite Hvt in Ht. cbn in Ht.
      split_and!; try done. intros _. split; [done|].
      exists p. split_and!; congruence.
  - intros Hm pk.
    assert (∃ action partial,
              ProjectViewSet.get_serializer_class action
              = serializers.ProjectSerializer
              ∧ get_response (Item "projects" pk) request db
                = respond (ProjectViewSet.update action partial u pk request
                             db) db) as (action & partial & Hcls & ->).
    { destruct Hm as [Hm|Hm].
      - exists ActUpdate, false. split; [done|].
        by apply get_response_project_put.
      - exists ActPartialUpdate, true. split; [done|].
        by apply get_response_project_patch. }
    destruct (update_cases db u request Hwf action partial pk Hcls)
      as [[_ ->] | (p & _ & Hp & Hpu & Hpk & [[_ ->] | Hok])].
    + eexists _, _. split; [done|]. cbn. split_and!; try done; auto.
    + eexists _, _. split; [done|]. cbn. split_and!; try done; auto.
    + destruct Hok
        as (v & resp & db' & p' & _ & Hvt & Hvi & -> & Hst & Hf & Ht).
      exists resp, db'. split; [done|].
      destruct (tags_result_supplied db request Hwf partial items Hs)
        as [(ts & Hg & Hall & Hset) | [Hg Hno]]; rewrite Hg in *; [|done].
      rewrite Hvt in Ht. cbn in Ht.
      split_and!; try done. intros _. split; [done|].
      exists p, p'. split_and!; congruence.
Qed.

Lemma supplied_tags_replace_witness :
  let request :=
    mkreq POST 1 []
      (FormData [("title", "Videogame"); ("tags", "1"); ("tags", "2");
                 ("description", "open world"); ("price", "5")]) in
  let items := [DStr "1"; DStr "2"] in
  (method request = POST →
     ∃ resp db',
       get_response (H := sample_fields) (Collection "projects") request
         sample_db = (Responded resp, db')
       ∧ (status_code resp = 201 →
            Forall (names_tag sample_db) items
            ∧ ∃ p, project_by_id db' (project_seq sample_db) = Some p
                   ∧ user p = 1 ∧ tags p = reference_set items)
       ∧ (status_code resp ≠ 201 → status_code resp = 400 ∧ db' = sample_db)
       ∧ (¬ Forall (names_tag sample_db) items → status_code resp = 400))
  ∧ (method request = PUT ∨ method request = PATCH →
     ∀ pk, ∃ resp db',
       get_response (H := sample_fields) (Item "projects" pk) request
         sample_db = (Responded resp, db')
       ∧ (status_code resp = 200 →
            Forall (names_tag sample_db) items
            ∧ ∃ p p', p ∈ project_table sample_db ∧ user p = 1
                      ∧ Py.int_of_str pk = Some (id p)
                      ∧ project_by_id db' (id p) = Some p'
                      ∧ tags p' = reference_set items)
       ∧ (status_code resp ≠ 200 →
            (status_code resp = 400 ∨ status_code resp = 404)
            ∧ db' = sample_db)
       ∧ (¬ Forall (names_tag sample_db) items → status_code resp ≠ 200)).
Proof.
  apply (supplied_tags_replace (H := sample_fields) sample_db 1
           (mkreq POST 1 []
              (FormData [("title", "Videogame"); ("tags", "1"); ("tags", "2");
                         ("description", "open world"); ("price", "5")]))
           [DStr "1"; DStr "2"]).
  - apply (bool_decide_unpack _). by vm_compute.
  - reflexivity.
  - reflexivity.
Defined.

(** The scenario of [test_create_project_with_tags]: the new project has
    exactly the two tags. A reference to a tag that does not exist is
    refused. *)
Example create_with_tags_samples :
  let post tag_values :=
    get_response (H := sample_fields) (Collection "projects")
      (mkreq POST 1 []
         (FormData ([("title", "Videogame"); ("description", "open world");
                     ("price", "5")] ++ ((λ v, ("tags", v)) <$> tag_values))))
      sample_db in
  status (post ["1"; "2"]).1 = Some 201
  ∧ tags <$> project_by_id (post ["1"; "2"]).2 4 = Some {[ 1; 2 ]}
  ∧ post ["1"; "9"]
    = (Responded {| status_code := 400; data := Detail |}, sample_db)
  ∧ post ["one"]
    = (Responded {| status_code := 400; data := Detail |}, sample_db).
Proof. vm_compute. split_and!; try done. Qed.

(** C2, as stated, fails on its second half: identity 1 creates a project
    and updates another with the tag 3, which identity 2 owns; both requests
    are accepted and the projects carry the tag. *)
Lemma foreign_tag_accepted :
  let created :=
    get_response (H := sample_fields) (Collection "projects")
      (mkreq POST 1 []
         (FormData [("title", "T"); ("description", "d"); ("price", "5");
                    ("tags", "3")])) sample_db in
  let patched :=
    get_response (H := sample_fields) (Item "projects" "1")
      (mkreq PATCH 1 [] (JsonData [("tags", DList [DInt 3])])) sample_db in
  tag_by_id sample_db 3 = Some {| tag_id := 3; name := "zeta"; tag_user := 2 |}
  ∧ status created.1 = Some 201
  ∧ tags <$> project_by_id created.2 4 = Some {[ 3 ]}
  ∧ user <$> project_by_id created.2 4 = Some 1
  ∧ status patched.1 = Some 200
  ∧ tags <$> project_by_id patched.2 1 = Some {[ 3 ]}.
Proof. vm_compute. split_and!; done. Qed.

(** ** The invariant of the database *)

Lemma NoDup_fmap_filter {A : Type} (f : A → Z) (P : A → Prop)
    `{!∀ x, Decision (P x)} (l : list A) :
  NoDup (f <$> l) → NoDup (f <$> filter P l).
Proof.
  induction l as [|x l IH]; [done|].
  rewrite fmap_cons, NoDup_cons. intros [Hx Hl]. rewrite filter_cons.
  case_decide; [|by apply IH].
  rewrite fmap_cons. apply NoDup_cons. split; [|by apply IH].
  intros Hin. apply Hx. apply list_elem_of_fmap in Hin as (y & -> & Hy).
  apply list_elem_of_filter in Hy as [_ Hy]. by apply list_elem_of_fmap_2.
Qed.

Lemma wf_empty_db : wf_db empty_db.
Proof. split; cbn; constructor. Qed.

Lemma wf_Tag_create db validated_name u :
  wf_db db → wf_db (serializers.Tag_create validated_name u db).2.
Proof.
  intros [H1 H2 H3 H4]. split; cbn; try done.
  - rewrite fmap_app. apply NoDup_app. split_and!; [done| |by apply NoDup_singleton].
    intros k Hk Hk'. apply list_elem_of_fmap in Hk as (t & -> & Ht).
    rewrite Forall_forall in H2. specialize (H2 t Ht). cbn in Hk'.
    apply list_elem_of_singleton in Hk'. lia.
  - apply Forall_app. split.
    + eapply Forall_impl; [done|]. cbn. intros; lia.
    + apply Forall_singleton. cbn. lia.
Qed.

Lemma wf_create db v u : wf_db db → wf_db (serializers.create v u db).2.
Proof.
  intros [H1 H2 H3 H4]. split; cbn; try done.
  - rewrite fmap_app. apply NoDup_app. split_and!; [done| |by apply NoDup_singleton].
    intros k Hk Hk'. apply list_elem_of_fmap in Hk as (t & -> & Ht).
    rewrite Forall_forall in H4. specialize (H4 t Ht). cbn in Hk'.
    apply list_elem_of_singleton in Hk'. lia.
  - apply Forall_app. split.
    + eapply Forall_impl; [done|]. cbn. intros; lia.
    + apply Forall_singleton. cbn. lia.
Qed.

Lemma wf_update db instance v :
  wf_db db → instance ∈ project_table db →
  wf_db (serializers.update instance v db).2.
Proof.
  intros [H1 H2 H3 H4] Hin. split; cbn; try done.
  - rewrite <- list_fmap_compose.
    erewrite list_fmap_ext; [exact H3|]. intros i x _. cbn.
    by case_decide.
  - apply Forall_fmap. rewrite Forall_forall in *. intros x Hx. cbn.
    case_decide as Hid; cbn; [|by apply H4].
    rewrite <- Hid. by apply H4.
Qed.

Lemma wf_destroy db k :
  wf_db db →
  wf_db {| tag_table := tag_table db; tag_seq := tag_seq db;
           project_table := filter (λ r, id r ≠ k) (project_table db);
           project_seq := project_seq db |}.
Proof.
  intros [H1 H2 H3 H4]. split; cbn; try done.
  - by apply NoDup_fmap_filter.
  - rewrite Forall_forall in *. intros x Hx.
    apply list_elem_of_filter in Hx as [_ Hx]. by apply H4.
Qed.

(** Every request leaves the keys unique and below the sequences. *)
Lemma wf_db_get_response `{!ModelFields} db path request :
  wf_db db → wf_db (get_response path request db).2.
Proof.
  intros Hwf.
  destruct (resolve path) as [p|] eqn:Hr.
  2:{ unfold get_response. by rewrite Hr. }
  destruct (req_user request) as [who|] eqn:Hu.
  2:{ by rewrite get_response_unauthenticated by eauto. }
  apply resolve_Some in Hr as [[-> ->] | [[-> ->] | (pk & -> & ->)]];
    destruct (method request) eqn:Hm.
  all: first
    [ by rewrite (get_response_collection_not_allowed _ _ who)
        by (eauto; rewrite Hm; set_solver)
    | rewrite (get_response_tags_get _ _ who) by done
    | rewrite (get_response_tags_post _ _ who) by done
    | rewrite (get_response_projects_get _ _ who) by done
    | rewrite (get_response_projects_post _ _ who) by done
    | rewrite (get_response_project_get _ _ who) by done
    | by rewrite (get_response_project_post _ _ who) by done
    | rewrite (get_response_project_put _ _ who) by done
    | rewrite (get_response_project_patch _ _ who) by done
    | rewrite (get_response_project_delete _ _ who) by done ].
  - unfold TagViewSet.list_.
    by destruct (BaseProjectAttrViewSet.get_queryset _ _ _).
  - unfold TagViewSet.create.
    destruct (serializers.Tag_to_internal_value _ _) as [v|e]; [|done].
    apply (wf_Tag_create db v who Hwf).
  - done.
  - unfold ProjectViewSet.create.
    destruct (serializers.to_internal_value _ _ _ _) as [v|e]; [|done].
    apply (wf_create db v who Hwf).
  - unfold ProjectViewSet.retrieve.
    by destruct (ProjectViewSet.get_object _ _ _).
  - unfold ProjectViewSet.update.
    destruct (get_object_cases db who Hwf pk)
      as [(q & -> & Hq & _) | ->]; [|done]. cbn [mbind Result_bind].
    destruct (serializers.to_internal_value _ _ _ _) as [v|e]; [|done].
    apply (wf_update db q v Hwf Hq).
  - unfold ProjectViewSet.partial_update, ProjectViewSet.update.
    destruct (get_object_cases db who Hwf pk)
      as [(q & -> & Hq & _) | ->]; [|done]. cbn [mbind Result_bind].
    destruct (serializers.to_internal_value _ _ _ _) as [v|e]; [|done].
    apply (wf_update db q v Hwf Hq).
  - unfold ProjectViewSet.destroy.
    destruct (ProjectViewSet.get_object _ _ _) as [q|e]; [|done].
    by apply wf_destroy.
Qed.

(** * Further properties of the views, the serializers and the router *)

(** ** Authentication and routing *)

(** Rewriting [get_response] into the handler that the request of [who]
    with method [Hm] runs, in the goal or in a hypothesis. *)
Ltac route who Hm :=
  first
    [ rewrite (get_response_collection_not_allowed _ _ who)
        by (eauto; rewrite Hm; set_solver)
    | rewrite (get_response_tags_get _ _ who) by done
    | rewrite (get_response_tags_post _ _ who) by done
    | rewrite (get_response_projects_get _ _ who) by done
    | rewrite (get_response_projects_post _ _ who) by done
    | rewrite (get_response_project_get _ _ who) by done
    | rewrite (get_response_project_post _ _ who) by done
    | rewrite (get_response_project_put _ _ who) by done
    | rewrite (get_response_project_patch _ _ who) by done
    | rewrite (get_response_project_delete _ _ who) by done ].

Ltac route_in H who Hm :=
  first
    [ rewrite (get_response_collection_not_allowed _ _ who) in H
        by (eauto; rewrite Hm; set_solver)
    | rewrite (get_response_tags_get _ _ who) in H by done
    | rewrite (get_response_tags_post _ _ who) in H by done
    | rewrite (get_response_projects_get _ _ who) in H by done
    | rewrite (get_response_projects_post _ _ who) in H by done
    | rewrite (get_response_project_get _ _ who) in H by done
    | rewrite (get_response_project_post _ _ who) in H by done
    | rewrite (get_response_project_put _ _ who) in H by done
    | rewrite (get_response_project_patch _ _ who) in H by done
    | rewrite (get_response_project_delete _ _ who) in H by done ].

Ltac unfold_handlers_in H :=
  unfold respond, TagViewSet.list_, TagViewSet.create,
    ProjectViewSet.list_, ProjectViewSet.create,
    ProjectViewSet.retrieve, ProjectViewSet.partial_update,
    ProjectViewSet.update, ProjectViewSet.destroy in H.

Ltac exception_cases H :=
  try match type of H with
    | context [handle_exception ?e] => destruct e; cbn in H
    end.



(** ** What a request does to the database *)

(** The object that [get_object] returns is a row of the caller with the
    key of the URL. *)
Lemma get_object_Ok db u pk p :
  ProjectViewSet.get_object u pk db = Ok p →
  p ∈ project_table db ∧ user p = u ∧ Py.int_of_str pk = Some (id p).
Proof.
  unfold ProjectViewSet.get_object, orm.get_project. cbn [orm.to_pk].
  destruct (Py.int_of_str pk) as [k|]; [|done].
  destruct (orm.evaluate_projects db _) as [|q [|q' l]] eqn:He;
    cbn; intros Hq; simplify_eq.
  assert (p ∈ orm.evaluate_projects db
                (orm.filter_project (orm.project_pk_eq k)
                   (ProjectViewSet.get_queryset u))) as Hin
    by (rewrite He; left).
  unfold orm.evaluate_projects in Hin.
  apply list_elem_of_filter in Hin as [Hm Hin]. cbn in Hm.
  rewrite !andb_true_iff, !bool_decide_eq_true in Hm.
  destruct Hm as (Hpu & Hk & _). split_and!; congruence.
Qed.

(** One request of identity [u] leaves the database as it is, appends one
    tag or one project of [u] with the next key, rewrites one project of
    [u] in place (same key, same owner), or deletes one project of [u]. *)
Lemma get_response_db_step `{!ModelFields} db path request u :
  req_user request = Some u →
  db_step u db (get_response path request db).2.
Proof.
  intros Hu.
  destruct (resolve path) as [p|] eqn:Hr.
  2:{ unfold get_response. rewrite Hr. constructor. }
  apply resolve_Some in Hr as [[-> ->] | [[-> ->] | (pk & -> & ->)]];
    destruct (method request) eqn:Hm; route u Hm;
    try (by constructor).
  - unfold TagViewSet.list_.
    destruct (BaseProjectAttrViewSet.get_queryset _ _ _); constructor.
  - unfold TagViewSet.create.
    destruct (serializers.Tag_to_internal_value _ _) as [v|e];
      [|constructor].
    by apply step_tag_created.
  - unfold ProjectViewSet.create.
    destruct (serializers.to_internal_value _ _ _ _) as [v|e];
      [|constructor].
    by apply step_project_created.
  - unfold ProjectViewSet.retrieve.
    destruct (ProjectViewSet.get_object _ _ _); constructor.
  - unfold ProjectViewSet.update.
    destruct (ProjectViewSet.get_object u pk db) as [q|e] eqn:Hq;
      [|constructor].
    apply get_object_Ok in Hq as (Hq & Hqu & _). cbn [mbind Result_bind].
    destruct (serializers.to_internal_value _ _ _ _) as [v|e];
      [|constructor].
    by apply (step_project_updated u db q).
  - unfold ProjectViewSet.partial_update, ProjectViewSet.update.
    destruct (ProjectViewSet.get_object u pk db) as [q|e] eqn:Hq;
      [|constructor].
    apply get_object_Ok in Hq as (Hq & Hqu & _). cbn [mbind Result_bind].
    destruct (serializers.to_internal_value _ _ _ _) as [v|e];
      [|constructor].
    by apply (step_project_updated u db q).
  - unfold ProjectViewSet.destroy.
    destruct (ProjectViewSet.get_object u pk db) as [q|e] eqn:Hq;
      [|constructor].
    apply get_object_Ok in Hq as (Hq & Hqu & _).
    by apply (step_project_deleted u db q).
Qed.

Lemma get_response_anonymous `{!ModelFields} db path request :
  req_user request = None → (get_response path request db).2 = db.
Proof.
  intros Hn. unfold get_response.
  destruct (resolve path) as [p|]; [|done].
  unfold dispatch, initial. by rewrite Hn.
Qed.

(** X4: no request removes or changes a tag, and no key is handed out
    twice: after any request the tag table still starts with the tags that
    were there, and neither sequence has gone back. *)
Theorem tags_only_grow `{!ModelFields} db path request :
  let db' := (get_response path request db).2 in
  tag_table db `prefix_of` tag_table db'
  ∧ (tag_seq db ≤ tag_seq db')%Z
  ∧ (project_seq db ≤ project_seq db')%Z.
Proof.
  cbn. destruct (req_user request) as [u|] eqn:Hu.
  - destruct (get_response_db_step db path request u Hu); cbn;
      split_and!; try done; try lia.
    by apply prefix_app_r.
  - rewrite get_response_anonymous by done. split_and!; done || lia.
Qed.

Lemma find_unique (l : list Project) (p : Project) :
  NoDup (id <$> l) → p ∈ l →
  snd <$> list_find (λ x, id x = id p) l = Some p.
Proof.
  induction l as [|y l IH]; intros Hnd Hp; [by apply elem_of_nil in Hp|].
  rewrite fmap_cons in Hnd. apply NoDup_cons in Hnd as [Hy Hnd].
  rewrite find_cons. apply elem_of_cons in Hp as [<- | Hp].
  - by rewrite decide_True.
  - rewrite decide_False; [by apply IH|].
    intros Heq. apply Hy. rewrite Heq. by apply list_elem_of_fmap_2.
Qed.

Lemma find_filter_other (k k0 : Z) (l : list Project) :
  k ≠ k0 →
  snd <$> list_find (λ x, id x = k) (filter (λ r, id r ≠ k0) l)
  = snd <$> list_find (λ x, id x = k) l.
Proof.
  intros Hne. induction l as [|y l IH]; [done|].
  rewrite filter_cons. destruct (decide (id y ≠ k0)) as [Hy|Hy].
  - by rewrite !find_cons, IH.
  - rewrite find_cons, decide_False; [done|].
    intros Heq. apply Hy. congruence.
Qed.


(** X5: no request of another identity, and no request without identity,
    changes or removes a project: the row of a project is the same after
    any request whose caller is not its owner. *)
Theorem foreign_projects_untouched `{!ModelFields} db path request p :
  wf_db db → p ∈ project_table db → req_user request ≠ Some (user p) →
  let db' := (get_response path request db).2 in
  p ∈ project_table db' ∧ project_by_id db' (id p) = Some p.
Proof.
  intros Hwf Hp Hne. cbn.
  assert (project_by_id db (id p) = Some p) as Hfind
    by (apply find_unique; [apply Hwf|done]).
  destruct (req_user request) as [u|] eqn:Hu.
  2:{ by rewrite get_response_anonymous. }
  assert (user p ≠ u) as Hpu by congruence.
  destruct (get_response_db_step db path request u Hu)
    as [|t Ht Htu|q Hq Hqu|q q' Hq Hqu Hid Hqu'|q Hq Hqu]; try done.
  - split; cbn.
    + apply elem_of_app. by left.
    + unfold project_by_id. cbn. rewrite find_app_old; [done|].
      destruct Hwf as [_ _ _ Hseq]. rewrite Forall_forall in Hseq.
      specialize (Hseq p Hp). lia.
  - assert (id p ≠ id q) as Hpq.
    { intros Heq. apply Hpu. rewrite <- Hqu. f_equal.
      eapply (key_unique id); try done. apply Hwf. }
    split; cbn.
    + apply list_elem_of_fmap. exists p. split; [|done].
      by rewrite decide_False.
    + unfold project_by_id. cbn. by rewrite find_replace_other.
  - assert (id p ≠ id q) as Hpq.
    { intros Heq. apply Hpu. rewrite <- Hqu. f_equal.
      eapply (key_unique id); try done. apply Hwf. }
    split; cbn.
    + by apply list_elem_of_filter.
    + unfold project_by_id. cbn. by rewrite find_filter_other.
Qed.

Lemma foreign_projects_untouched_witness :
  let p := {| id := 1; title := "P1"; description := "first"; price := 500;
              link := ""; user := 1; tags := {[ 1 ]} |} in
  let db' :=
    (get_response (H := sample_fields) (Item "projects" "1")
       (mkreq DELETE 2 [] (FormData [])) sample_db).2 in
  p ∈ project_table db' ∧ project_by_id db' (id p) = Some p.
Proof.
  apply (foreign_projects_untouched (H := sample_fields) sample_db
           (Item "projects" "1") (mkreq DELETE 2 [] (FormData []))
           {| id := 1; title := "P1"; description := "first"; price := 500;
              link := ""; user := 1; tags := {[ 1 ]} |}).
  - apply (bool_decide_unpack _). by vm_compute.
  - apply (bool_decide_unpack _). by vm_compute.
  - by vm_compute.
Defined.

(** X6: every database that a sequence of requests builds from the empty
    one has unique primary keys, all below the sequences. *)
Theorem reachable_db_wf `{!ModelFields} requests :
  wf_db (serve_all requests empty_db).
Proof.
  assert (∀ db, wf_db db → wf_db (serve_all requests db)) as Hall.
  { induction requests as [|[path request] rest IH]; intros db Hwf; [done|].
    cbn. apply IH. by apply wf_db_get_response. }
  apply Hall, wf_empty_db.
Qed.

(** X7: a GET changes nothing, whatever the path, the caller and the
    parameters: lists and retrieves only read. *)
Theorem get_is_safe `{!ModelFields} db path request :
  method request = GET → (get_response path request db).2 = db.
Proof.
  intros Hm. destruct (req_user request) as [u|] eqn:Hu.
  2:{ by apply get_response_anonymous. }
  destruct (resolve path) as [p|] eqn:Hr.
  2:{ unfold get_response. by rewrite Hr. }
  apply resolve_Some in Hr as [[-> ->] | [[-> ->] | (pk & -> & ->)]];
    route u Hm.
  - unfold TagViewSet.list_.
    by destruct (BaseProjectAttrViewSet.get_queryset _ _ _).
  - done.
  - unfold ProjectViewSet.retrieve.
    by destruct (ProjectViewSet.get_object _ _ _).
Qed.

Lemma get_is_safe_witness :
  (get_response (H := sample_fields) (Item "projects" "2")
     (mkreq GET 1 [("assigned_only", "x")] (JsonData [("tags", DList [])]))
     sample_db).2 = sample_db.
Proof.
  apply (get_is_safe (H := sample_fields) sample_db (Item "projects" "2")
           (mkreq GET 1 [("assigned_only", "x")]
              (JsonData [("tags", DList [])]))).
  reflexivity.
Defined.

(** ** The answers *)

Lemma Tag_to_internal_value_cases `{!ModelFields} partial d :
  (∃ v, serializers.Tag_to_internal_value partial d = Ok v)
  ∨ serializers.Tag_to_internal_value partial d = Raise ValidationError.
Proof.
  unfold serializers.Tag_to_internal_value.
  pose proof (run_validation_failure serializers.char_required partial
                name_field
                (serializers.get_value serializers.char_required partial
                   "name" d)) as Hf.
  destruct (serializers.run_validation _ _ _ _); eauto; done.
Qed.

(** The answers of the view sets on a database with unique keys: the
    statuses, the answers that leave the database as it was, and the one
    exception that no handler catches. *)
Lemma get_response_outcomes `{!ModelFields} db path request o db' :
  wf_db db → get_response path request db = (o, db') →
  (∃ resp, o = Responded resp
           ∧ status_code resp ∈ [200; 201; 204; 400; 401; 404; 405]
           ∧ (status_code resp ∈ [400; 401; 404; 405] → db' = db))
  ∨ (o = Unhandled ValueError ∧ db' = db
     ∧ path = Collection "tags" ∧ method request = GET
     ∧ ∃ s, QueryDict.get "assigned_only" (query_params request) = Some s
            ∧ Py.int_of_str s = None).
Proof.
  intros Hwf Hg.
  assert (∀ c : Z, ∀ b db0,
            c ∈ [200; 201; 204; 400; 401; 404; 405] →
            (c ∈ [400; 401; 404; 405] → db0 = db) →
            ∃ resp, Responded {| status_code := c; data := b |}
                    = Responded resp
                    ∧ status_code resp ∈ [200; 201; 204; 400; 401; 404; 405]
                    ∧ (status_code resp ∈ [400; 401; 404; 405] → db0 = db))
    as Hok by (intros; eexists; by split_and!).
  destruct (resolve path) as [p|] eqn:Hr.
  2:{ unfold get_response in Hg. rewrite Hr in Hg. simplify_eq. left.
      apply Hok; [set_solver|done]. }
  destruct (req_user request) as [u|] eqn:Hu.
  2:{ rewrite get_response_unauthenticated in Hg by eauto. simplify_eq.
      left. apply Hok; [set_solver|done]. }
  apply resolve_Some in Hr as [[-> ->] | [[-> ->] | (pk & -> & ->)]];
    destruct (method request) eqn:Hm; route_in Hg u Hm;
    try (simplify_eq; left; apply Hok; [set_solver|done]).
  - rewrite <- (get_response_tags_get request db u Hu Hm) in Hg.
    rewrite (tag_list_response db u) in Hg by done.
    unfold BaseProjectAttrViewSet.assigned_only_param in Hg.
    destruct (QueryDict.get "assigned_only" (query_params request))
      as [s|] eqn:Hs.
    + destruct (Py.int_of_str s) as [n|] eqn:Hn; simplify_eq.
      * left. apply Hok; [set_solver|done].
      * right. split_and!; try done. eauto.
    + simplify_eq. left. apply Hok; [set_solver|done].
  - unfold TagViewSet.create in Hg.
    destruct (Tag_to_internal_value_cases false (req_data request))
      as [[v Hv] | Hv]; rewrite Hv in Hg; cbn in Hg; simplify_eq; left;
      (apply Hok; [set_solver|]); [|done].
    intros Hc. set_solver.
  - unfold respond, ProjectViewSet.list_ in Hg. simplify_eq. left.
    apply Hok; set_solver.
  - destruct (create_cases db u request Hwf)
      as [[_ Hc] | (v & resp & db1 & q & _ & _ & _ & Hc & Hst & _)];
      rewrite Hc in Hg; simplify_eq; left.
    + apply Hok; [set_solver|done].
    + exists resp. split; [done|]. rewrite Hst. split; set_solver.
  - unfold ProjectViewSet.retrieve in Hg.
    destruct (get_object_cases db u Hwf pk) as [(q & Hq & _) | Hq];
      rewrite Hq in Hg; cbn in Hg; simplify_eq; left;
      (apply Hok; [set_solver|]); [|done].
    intros Hc. set_solver.
  - destruct (update_cases db u request Hwf ActUpdate false pk eq_refl)
      as [[_ Hc] | (q & _ & _ & _ & _
                    & [[_ Hc] | (v & resp & db1 & q' & _ & _ & _ & Hc & Hst & _)])];
      rewrite Hc in Hg; simplify_eq; left;
      try (apply Hok; [set_solver|done]).
    exists resp. split; [done|]. rewrite Hst. split; set_solver.
  - unfold ProjectViewSet.partial_update in Hg.
    destruct (update_cases db u request Hwf ActPartialUpdate true pk eq_refl)
      as [[_ Hc] | (q & _ & _ & _ & _
                    & [[_ Hc] | (v & resp & db1 & q' & _ & _ & _ & Hc & Hst & _)])];
      rewrite Hc in Hg; simplify_eq; left;
      try (apply Hok; [set_solver|done]).
    exists resp. split; [done|]. rewrite Hst. split; set_solver.
  - unfold ProjectViewSet.destroy in Hg.
    destruct (get_object_cases db u Hwf pk) as [(q & Hq & _) | Hq];
      rewrite Hq in Hg; cbn in Hg; simplify_eq; left;
      (apply Hok; [set_solver|]); [|done].
    intros Hc. set_solver.
Qed.

(** ** Accepted writes *)

(** The validated data, field by field. *)
Lemma to_internal_value_Ok `{!ModelFields} cls db partial d v :
  serializers.to_internal_value cls db partial d = Ok v →
  v = {| serializers.v_title :=
           serializers.value
             (serializers.run_validation serializers.char_required partial
                title_field
                (serializers.get_value serializers.char_required partial
                   "title" d));
         serializers.v_description :=
           serializers.value
             (serializers.run_validation serializers.char_required partial
                description_field
                (serializers.get_value serializers.char_required partial
                   "description" d));
         serializers.v_tags :=
           serializers.value
             match cls with
             | serializers.ProjectSerializer => tags_result db partial d
             | serializers.ProjectDetailSerializer => serializers.Skipped
             end;
         serializers.v_price :=
           serializers.value
             (serializers.run_validation serializers.decimal_required partial
                price_field
                (serializers.get_value serializers.decimal_required partial
                   "price" d));
         serializers.v_link :=
           serializers.value
             (serializers.run_validation serializers.char_optional partial
                link_field
                (serializers.get_value serializers.char_optional partial
                   "link" d)) |}
  ∧ serializers.is_invalid
      (serializers.run_validation serializers.char_required partial
         title_field
         (serializers.get_value serializers.char_required partial "title" d))
    = false
  ∧ serializers.is_invalid
      (serializers.run_validation serializers.char_required partial
         description_field
         (serializers.get_value serializers.char_required partial
            "description" d))
    = false
  ∧ serializers.is_invalid
      (serializers.run_validation serializers.decimal_required partial
         price_field
         (serializers.get_value serializers.decimal_required partial
            "price" d))
    = false
  ∧ (cls = serializers.ProjectSerializer →
     serializers.is_invalid (tags_result db partial d) = false)
  ∧ serializers.is_invalid
      (serializers.run_validation serializers.char_optional partial
         link_field
         (serializers.get_value serializers.char_optional partial "link" d))
    = false.
Proof.
  unfold serializers.to_internal_value, tags_result.
  destruct (_ ∪ _) as [e|]; [done|].
  match goal with
  | |- context [if ?b then _ else _] => destruct b eqn:Hb
  end; [done|].
  intros [= <-]. rewrite !orb_false_iff in Hb.
  destruct Hb as ((((Ht & He) & Hg) & Hp) & Hl).
  split_and!; try done. by intros ->.
Qed.

(** An update that is answered 200 found the object of the caller,
    validated the data and wrote it. *)
Lemma update_accepted `{!ModelFields} db u request action partial pk resp db' :
  respond (ProjectViewSet.update action partial u pk request db) db
  = (Responded resp, db') →
  status_code resp = 200 →
  ∃ p v,
    ProjectViewSet.get_object u pk db = Ok p
    ∧ serializers.to_internal_value
        (ProjectViewSet.get_serializer_class action) db partial
        (req_data request) = Ok v
    ∧ db' = (serializers.update p v db).2
    ∧ data resp
      = ProjectData
          (serializers.to_representation
             (ProjectViewSet.get_serializer_class action) db'
             (serializers.update p v db).1).
Proof.
  unfold ProjectViewSet.update. intros Hr Hst.
  destruct (ProjectViewSet.get_object u pk db) as [p|e] eqn:Hp; cbn in Hr.
  2:{ destruct e; by simplify_eq/=. }
  destruct (serializers.to_internal_value _ _ _ _) as [v|e] eqn:Hv;
    cbn in Hr.
  2:{ destruct e; by simplify_eq/=. }
  simplify_eq. by exists p, v.
Qed.

(** A create that is answered 201 validated the data and inserted it. *)
Lemma create_accepted `{!ModelFields} db u request resp db' :
  respond (ProjectViewSet.create ActCreate u request db) db
  = (Responded resp, db') →
  status_code resp = 201 →
  ∃ v,
    serializers.to_internal_value serializers.ProjectSerializer db false
      (req_data request) = Ok v
    ∧ db' = (serializers.create v u db).2
    ∧ data resp
      = ProjectData
          (serializers.to_representation serializers.ProjectSerializer db'
             (serializers.create v u db).1).
Proof.
  unfold ProjectViewSet.create. intros Hr Hst.
  change (ProjectViewSet.get_serializer_class ActCreate)
    with serializers.ProjectSerializer in Hr.
  destruct (serializers.to_internal_value _ _ _ _) as [v|e] eqn:Hv;
    cbn in Hr.
  2:{ destruct e; by simplify_eq/=. }
  simplify_eq. by exists v.
Qed.

(** X9: an accepted update, full or partial, never moves a project: the
    row keeps its key and its owner whatever the data says, the keys of the
    table stay in the same order, every other project is as before, and
    the tags and the sequences are untouched. *)
Theorem update_keeps_key_and_owner `{!ModelFields} db u request pk :
  wf_db db → req_user request = Some u →
  method request = PUT ∨ method request = PATCH →
  status (get_response (Item "projects" pk) request db).1 = Some 200 →
  let db' := (get_response (Item "projects" pk) request db).2 in
  ∃ p p',
    p ∈ project_table db ∧ user p = u ∧ Py.int_of_str pk = Some (id p)
    ∧ project_by_id db' (id p) = Some p'
    ∧ id p' = id p ∧ user p' = user p
    ∧ id <$> project_table db' = id <$> project_table db
    ∧ (∀ k, k ≠ id p → project_by_id db' k = project_by_id db k)
    ∧ tag_table db' = tag_table db
    ∧ tag_seq db' = tag_seq db ∧ project_seq db' = project_seq db.
Proof.
  intros Hwf Hu Hm Hst.
  destruct (get_response (Item "projects" pk) request db) as [o db'] eqn:Hg.
  destruct o as [resp|]; [|done]. cbn in Hst. cbn [snd].
  assert (∃ action partial,
            respond (ProjectViewSet.update action partial u pk request db) db
            = (Responded resp, db')) as (action & partial & Hr).
  { destruct Hm as [Hm|Hm]; route_in Hg u Hm; eauto. }
  apply update_accepted in Hr as (p & v & Hp & _ & -> & _); [|congruence].
  apply get_object_Ok in Hp as (Hp & Hpu & Hpk).
  pose proof (update_effect db p v Hp) as Heff.
  unfold serializers.update in *. cbn in *.
  destruct Heff as (Hfind & Hother & _).
  eexists p, _. split_and!; try done.
  rewrite <- list_fmap_compose. apply list_fmap_ext.
  intros i x _. cbn. by case_decide.
Qed.

Lemma update_keeps_key_and_owner_witness :
  let request :=
    mkreq PATCH 1 []
      (JsonData [("user", DInt 2); ("id", DInt 9); ("title", DStr "renamed")])
  in
  let db' :=
    (get_response (H := sample_fields) (Item "projects" "2") request
       sample_db).2 in
  ∃ p p',
    p ∈ project_table sample_db ∧ user p = 1
    ∧ Py.int_of_str "2" = Some (id p)
    ∧ project_by_id db' (id p) = Some p'
    ∧ id p' = id p ∧ user p' = user p
    ∧ id <$> project_table db' = id <$> project_table sample_db
    ∧ (∀ k, k ≠ id p → project_by_id db' k = project_by_id sample_db k)
    ∧ tag_table db' = tag_table sample_db
    ∧ tag_seq db' = tag_seq sample_db
    ∧ project_seq db' = project_seq sample_db.
Proof.
  apply (update_keeps_key_and_owner (H := sample_fields) sample_db 1
           (mkreq PATCH 1 []
              (JsonData [("user", DInt 2); ("id", DInt 9);
                         ("title", DStr "renamed")])) "2").
  - apply (bool_decide_unpack _). by vm_compute.
  - reflexivity.
  - right. reflexivity.
  - reflexivity.
Defined.

Lemma tags_get_value_absent_partial d :
  supplies "tags" d = false → serializers.tags_get_value true d = None.
Proof.
  intros Hs. destruct d as [q|j].
  - cbn in *. by rewrite Hs.
  - by apply tags_get_value_absent_json.
Qed.

(** X10: a partial update (PATCH) changes only what the data supplies: the
    title, the description, the price, the link and the tag set of the
    project each stay as they were when the data has no entry of that
    name. *)
Theorem partial_update_keeps_unsupplied `{!ModelFields} db u request pk :
  wf_db db → req_user request = Some u → method request = PATCH →
  status (get_response (Item "projects" pk) request db).1 = Some 200 →
  let db' := (get_response (Item "projects" pk) request db).2 in
  let d := req_data request in
  ∃ p p',
    p ∈ project_table db ∧ user p = u ∧ Py.int_of_str pk = Some (id p)
    ∧ project_by_id db' (id p) = Some p'
    ∧ (supplies "title" d = false → title p' = title p)
    ∧ (supplies "description" d = false → description p' = description p)
    ∧ (supplies "price" d = false → price p' = price p)
    ∧ (supplies "link" d = false → link p' = link p)
    ∧ (supplies "tags" d = false → tags p' = tags p).
Proof.
  intros Hwf Hu Hm Hst.
  destruct (get_response (Item "projects" pk) request db) as [o db'] eqn:Hg.
  destruct o as [resp|]; [|done]. cbn in Hst. cbn [snd].
  route_in Hg u Hm. unfold ProjectViewSet.partial_update in Hg.
  apply update_accepted in Hg as (p & v & Hp & Hv & -> & _); [|congruence].
  apply get_object_Ok in Hp as (Hp & Hpu & Hpk).
  pose proof (update_effect db p v Hp) as Heff.
  apply to_internal_value_Ok in Hv as (Hv & _).
  unfold serializers.update in *. cbn in *.
  destruct Heff as (Hfind & _ & _).
  eexists p, _. split_and!; [done..|exact Hfind| | | | |];
    rewrite Hv; cbn; intros Hs.
  - by rewrite get_value_absent.
  - by rewrite get_value_absent.
  - by rewrite get_value_absent.
  - by rewrite get_value_absent.
  - unfold tags_result. by rewrite tags_get_value_absent_partial.
Qed.

Lemma partial_update_keeps_unsupplied_witness :
  let request := mkreq PATCH 1 [] (FormData [("title", "renamed")]) in
  let db' :=
    (get_response (H := sample_fields) (Item "projects" "2") request
       sample_db).2 in
  let d := req_data request in
  ∃ p p',
    p ∈ project_table sample_db ∧ user p = 1
    ∧ Py.int_of_str "2" = Some (id p)
    ∧ project_by_id db' (id p) = Some p'
    ∧ (supplies "title" d = false → title p' = title p)
    ∧ (supplies "description" d = false → description p' = description p)
    ∧ (supplies "price" d = false → price p' = price p)
    ∧ (supplies "link" d = false → link p' = link p)
    ∧ (supplies "tags" d = false → tags p' = tags p).
Proof.
  apply (partial_update_keeps_unsupplied (H := sample_fields) sample_db 1
           (mkreq PATCH 1 [] (FormData [("title", "renamed")])) "2").
  - apply (bool_decide_unpack _). by vm_compute.
  - reflexivity.
  - reflexivity.
  - reflexivity.
Defined.

Example partial_update_title_sample :
  project_by_id
    (get_response (H := sample_fields) (Item "projects" "2")
       (mkreq PATCH 1 [] (FormData [("title", "renamed")])) sample_db).2 2
  = Some {| id := 2; title := "renamed"; description := "second";
            price := 700; link := "http://example.com"; user := 1;
            tags := {[ 1 ]} |}.
Proof. vm_compute. reflexivity. Qed.

(** ** Entries that the serializers do not read *)

Section extra_entry.
Context `{!ModelFields} (key value : string) (d : RequestData).
Hypothesis Hkey : key ∉ writable_fields.

Lemma get_value_add_entry o partial field_name :
  field_name ∈ writable_fields →
  serializers.get_value o partial field_name (add_entry key value d)
  = serializers.get_value o partial field_name d.
Proof.
  intros Hf. assert (key ≠ field_name) as Hne by (intros ->; done).
  unfold serializers.get_value, add_entry. destruct d as [q|j].
  - unfold QueryDict.get, QueryDict.getlist.
    by rewrite filter_cons, decide_False.
  - unfold dict_get. by rewrite filter_cons, decide_False.
Qed.

Lemma tags_get_value_add_entry partial :
  serializers.tags_get_value partial (add_entry key value d)
  = serializers.tags_get_value partial d.
Proof.
  assert (key ≠ "tags") as Hne by (intros ->; apply Hkey; set_solver).
  unfold serializers.tags_get_value, add_entry. destruct d as [q|j].
  - unfold QueryDict.getlist. rewrite filter_cons, decide_False by done.
    rewrite fmap_cons. cbn [fst].
    assert (bool_decide ("tags" ∈ key :: q.*1) = bool_decide ("tags" ∈ q.*1))
      as -> ; [|done].
    apply bool_decide_ext. rewrite elem_of_cons. naive_solver.
  - unfold dict_get. by rewrite filter_cons, decide_False.
Qed.

Lemma to_internal_value_add_entry cls db partial :
  serializers.to_internal_value cls db partial (add_entry key value d)
  = serializers.to_internal_value cls db partial d.
Proof.
  unfold serializers.to_internal_value.
  rewrite !get_value_add_entry, tags_get_value_add_entry
    by (unfold writable_fields; set_solver).
  done.
Qed.

Lemma Tag_to_internal_value_add_entry partial :
  serializers.Tag_to_internal_value partial (add_entry key value d)
  = serializers.Tag_to_internal_value partial d.
Proof.
  unfold serializers.Tag_to_internal_value.
  by rewrite get_value_add_entry by (unfold writable_fields; set_solver).
Qed.

End extra_entry.

(** X11: the serializers read the entries [name], [title], [description],
    [tags], [price] and [link] and nothing else: one more entry under any
    other name, such as [id] or [user], changes neither the answer nor the
    database, for every request. *)
Theorem other_entries_ignored `{!ModelFields} db path request key value :
  key ∉ writable_fields →
  get_response path
    (with_data (add_entry key value (req_data request)) request) db
  = get_response path request db.
Proof.
  intros Hkey. unfold get_response.
  destruct (resolve path) as [p|] eqn:Hr; [|done].
  unfold dispatch, initial. cbn [req_user with_data method].
  destruct (req_user request) as [u|]; [|done]. cbn [mbind Result_bind].
  destruct (handler (action_map p) (method request)) as [a|e]; [|done].
  cbn [mbind Result_bind]. f_equal.
  unfold run_action, TagViewSet.list_, TagViewSet.create,
    ProjectViewSet.create, ProjectViewSet.partial_update,
    ProjectViewSet.update, BaseProjectAttrViewSet.get_queryset.
  cbn [req_data with_data query_params].
  rewrite !to_internal_value_add_entry, !Tag_to_internal_value_add_entry
    by done.
  done.
Qed.

Lemma other_entries_ignored_witness :
  get_response (H := sample_fields) (Collection "projects")
    (with_data
       (add_entry "user" "2"
          (req_data
             (mkreq POST 1 []
                (FormData [("title", "T"); ("description", "d");
                           ("price", "5")]))))
       (mkreq POST 1 []
          (FormData [("title", "T"); ("description", "d"); ("price", "5")])))
    sample_db
  = get_response (H := sample_fields) (Collection "projects")
      (mkreq POST 1 []
         (FormData [("title", "T"); ("description", "d"); ("price", "5")]))
      sample_db.
Proof.
  apply (other_entries_ignored (H := sample_fields) sample_db
           (Collection "projects")
           (mkreq POST 1 []
              (FormData [("title", "T"); ("description", "d");
                         ("price", "5")])) "user" "2").
  apply (bool_decide_unpack _). by vm_compute.
Defined.

(** ** Required fields *)

(** X12: a project created without a [tags] entry has no tag when the data
    is form-encoded and the request is accepted; in JSON the request is
    refused with 400, since the field is required. *)
Theorem create_without_tags `{!ModelFields} db u request :
  wf_db db → req_user request = Some u → method request = POST →
  supplies "tags" (req_data request) = false →
  let out := get_response (Collection "projects") request db in
  (status out.1 = Some 201 →
     (∃ q, req_data request = FormData q)
     ∧ ∃ p, project_by_id out.2 (project_seq db) = Some p
            ∧ user p = u ∧ tags p = ∅)
  ∧ (∀ j, req_data request = JsonData j →
          out = (Responded {| status_code := 400; data := Detail |}, db)).
Proof.
  intros Hwf Hu Hm Hs. cbn. route u Hm.
  pose proof (tags_result_omitted db request Hs) as Hg.
  destruct (create_cases db u request Hwf)
    as [[Hv ->] | (v & resp & db' & p & Hv & Hvt & Hvi & -> & Hst & Hf & Hpu & Ht)];
    cbn.
  - split; [done|]. done.
  - destruct (req_data request) as [q|j] eqn:Hd.
    + rewrite Hg in Hvt. rewrite Hvt in Ht. cbn in Ht.
      split; [|done]. intros _. split; [by eauto|]. by exists p.
    + rewrite Hg in Hvi. done.
Qed.

Lemma create_without_tags_witness :
  let request :=
    mkreq POST 1 []
      (FormData [("title", "Django Project"); ("description", "little");
                 ("price", "5")]) in
  let out :=
    get_response (H := sample_fields) (Collection "projects") request
      sample_db in
  (status out.1 = Some 201 →
     (∃ q, req_data request = FormData q)
     ∧ ∃ p, project_by_id out.2 (project_seq sample_db) = Some p
            ∧ user p = 1 ∧ tags p = ∅)
  ∧ (∀ j, req_data request = JsonData j →
          out = (Responded {| status_code := 400; data := Detail |},
                 sample_db)).
Proof.
  apply (create_without_tags (H := sample_fields) sample_db 1
           (mkreq POST 1 []
              (FormData [("title", "Django Project");
                         ("description", "little"); ("price", "5")]))).
  - apply (bool_decide_unpack _). by vm_compute.
  - reflexivity.
  - reflexivity.
  - reflexivity.
Defined.

(** The scenario of [test_create_basic_project], form-encoded, and the same
    data in JSON. *)
Example create_basic_samples :
  status (get_response (H := sample_fields) (Collection "projects")
            (mkreq POST 1 []
               (FormData [("title", "Django Project");
                          ("description", "little"); ("price", "5")]))
            sample_db).1 = Some 201
  ∧ status (get_response (H := sample_fields) (Collection "projects")
              (mkreq POST 1 []
                 (JsonData [("title", DStr "Django Project");
                            ("description", DStr "little");
                            ("price", DInt 5)]))
              sample_db).1 = Some 400.
Proof. vm_compute. done. Qed.

Lemma lacks_required_refused `{!ModelFields} db d :
  wf_db db → lacks_required d →
  serializers.to_internal_value serializers.ProjectSerializer db false d
  = Raise ValidationError.
Proof.
  intros Hwf Hl.
  destruct (to_internal_value_cases db Hwf false d)
    as [(v & Hv & _) | Hv]; [|done].
  apply to_internal_value_Ok in Hv as (_ & Ht & He & Hp & Hg & _).
  specialize (Hg eq_refl). exfalso.
  destruct d as [q|j]; cbn in Hl.
  - destruct Hl as [Hl | [Hl | Hl]].
    + cbn in Ht. rewrite Hl in Ht. done.
    + cbn in He. rewrite Hl in He. done.
    + cbn in Hp. rewrite Hl in Hp. done.
  - destruct Hl as [Hl | [Hl | [Hl | Hl]]].
    + cbn in Ht. rewrite Hl in Ht. done.
    + cbn in He. rewrite Hl in He. done.
    + cbn in Hp. rewrite Hl in Hp. done.
    + unfold tags_result in Hg. cbn in Hg. rewrite Hl in Hg. done.
Qed.

(** A create or a full update needs every required field. When the data
    lacks [title], [description] or [price], or JSON data lacks [tags], a
    create is refused with 400 and a full update with 400 (or 404 when the
    project is not the caller's), and nothing changes. *)
Theorem missing_required_field_refused `{!ModelFields} db u request :
  wf_db db → req_user request = Some u →
  lacks_required (req_data request) →
  (method request = POST →
   get_response (Collection "projects") request db
   = (Responded {| status_code := 400; data := Detail |}, db))
  ∧ (method request = PUT →
     ∀ pk, get_response (Item "projects" pk) request db
           = (Responded {| status_code := 400; data := Detail |}, db)
           ∨ get_response (Item "projects" pk) request db
             = (Responded {| status_code := 404; data := Detail |}, db)).
Proof.
  intros Hwf Hu Hl.
  pose proof (lacks_required_refused db (req_data request) Hwf Hl) as Hv.
  split; intros Hm.
  - route u Hm. unfold ProjectViewSet.create.
    change (ProjectViewSet.get_serializer_class ActCreate)
      with serializers.ProjectSerializer. by rewrite Hv.
  - intros pk. route u Hm.
    destruct (update_cases db u request Hwf ActUpdate false pk eq_refl)
      as [[_ ->] | (p & _ & _ & _ & _ & [[_ ->] | Hok])]; auto.
    destruct Hok as (v & _ & _ & _ & Hv' & _). congruence.
Qed.

Lemma missing_required_field_refused_witness :
  let request :=
    mkreq POST 1 []
      (JsonData [("title", DStr "T"); ("price", DInt 5);
                 ("tags", DList [])]) in
  (method request = POST →
   get_response (H := sample_fields) (Collection "projects") request
     sample_db
   = (Responded {| status_code := 400; data := Detail |}, sample_db))
  ∧ (method request = PUT →
     ∀ pk, get_response (H := sample_fields) (Item "projects" pk) request
             sample_db
           = (Responded {| status_code := 400; data := Detail |}, sample_db)
           ∨ get_response (H := sample_fields) (Item "projects" pk) request
               sample_db
             = (Responded {| status_code := 404; data := Detail |},
                sample_db)).
Proof.
  apply (missing_required_field_refused (H := sample_fields) sample_db 1
           (mkreq POST 1 []
              (JsonData [("title", DStr "T"); ("price", DInt 5);
                         ("tags", DList [])]))).
  - apply (bool_decide_unpack _). by vm_compute.
  - reflexivity.
  - apply (bool_decide_unpack _). by vm_compute.
Defined.

(** ** Creating a tag *)




(** ** Reading and deleting one's own project *)





(** ** The project list, exactly *)



(** ** Query parameters *)

Lemma QueryDict_get_last key s (q : QueryDict) :
  QueryDict.get key (q ++ [(key, s)]) = Some s.
Proof.
  unfold QueryDict.get, QueryDict.getlist.
  rewrite filter_app, fmap_app, filter_cons, decide_True by done.
  cbn. by rewrite last_snoc.
Qed.

Example repeated_assigned_only_sample :
  (get_response (H := sample_fields) (Collection "tags")
     (mkreq GET 1 [("assigned_only", "1"); ("page", "3");
                   ("assigned_only", "0")] (FormData [])) sample_db).1
  = (get_response (H := sample_fields) (Collection "tags")
       (mkreq GET 1 [] (FormData [])) sample_db).1.
Proof. vm_compute. reflexivity. Qed.

(** ** Create, then retrieve *)



Example create_then_retrieve_sample :
  let db' :=
    (get_response (H := sample_fields) (Collection "projects")
       (mkreq POST 1 []
          (FormData [("title", "Videogame"); ("tags", "1"); ("tags", "2");
                     ("description", "open world"); ("price", "5")]))
       sample_db).2 in
  (get_response (H := sample_fields) (Item "projects" "4")
     (mkreq GET 1 [] (FormData [])) db').1
  = Responded
      {| status_code := 200;
         data := ProjectData
           {| pr_id := 4; pr_title := "Videogame";
              pr_description := "open world";
              pr_tags := Nested [ {| r_id := 1; r_name := "alpha" |};
                                  {| r_id := 2; r_name := "beta" |} ];
              pr_price := 500; pr_link := "" |} |}.
Proof. vm_compute. reflexivity. Qed.

(** ** What an accepted write stores *)

Lemma get_value_supplied o partial field_name d x :
  o = serializers.char_required ∨ o = serializers.decimal_required
  ∨ o = serializers.char_optional →
  supplied field_name d = Some x →
  serializers.get_value o partial field_name d = Some x.
Proof.
  intros Ho Hs. unfold supplied, serializers.get_value in *.
  destruct d as [q|j]; [|done].
  destruct (QueryDict.get field_name q) as [ret|]; [|done].
  cbn in Hs. simplify_eq.
  destruct Ho as [-> | [-> | ->]]; cbn; rewrite ?andb_false_r; try done.
  case_bool_decide; by subst.
Qed.

Lemma stored_value {A : Type} o partial (conv : Data → option A)
    field_name d x (fallback : A) :
  o = serializers.char_required ∨ o = serializers.decimal_required
  ∨ o = serializers.char_optional →
  supplied field_name d = Some x →
  serializers.is_invalid
    (serializers.run_validation o partial conv
       (serializers.get_value o partial field_name d)) = false →
  conv x
  = Some (default fallback
            (serializers.value
               (serializers.run_validation o partial conv
                  (serializers.get_value o partial field_name d)))).
Proof.
  intros Ho Hs. rewrite (get_value_supplied o partial field_name d x) by done.
  cbn. by destruct (conv x).
Qed.

(** X13: an accepted write stores what the fields make of the supplied
    values. A created project is appended with the next key and the caller
    as owner; in a created or updated project each of title, description,
    price and link that the data supplies holds the converted value of that
    entry. *)
Theorem accepted_write_stores_supplied `{!ModelFields} db u request :
  wf_db db → req_user request = Some u →
  let d := req_data request in
  let stored p :=
    (∀ x, supplied "title" d = Some x → title_field x = Some (title p))
    ∧ (∀ x, supplied "description" d = Some x →
            description_field x = Some (description p))
    ∧ (∀ x, supplied "price" d = Some x → price_field x = Some (price p))
    ∧ (∀ x, supplied "link" d = Some x → link_field x = Some (link p)) in
  (method request = POST →
   status (get_response (Collection "projects") request db).1 = Some 201 →
   ∃ p, project_table (get_response (Collection "projects") request db).2
        = (project_table db ++ [p])%list
        ∧ id p = project_seq db ∧ user p = u ∧ stored p)
  ∧ (method request = PUT ∨ method request = PATCH →
     ∀ pk,
       status (get_response (Item "projects" pk) request db).1 = Some 200 →
       ∃ p, project_by_id (get_response (Item "projects" pk) request db).2
              (id p) = Some p
            ∧ Py.int_of_str pk = Some (id p) ∧ user p = u ∧ stored p).
Proof.
  intros Hwf Hu. cbn. split.
  - intros Hm Hst.
    destruct (get_response (Collection "projects") request db) as [o db']
      eqn:Hg.
    destruct o as [resp|]; [|done]. cbn in Hst. cbn [snd].
    route_in Hg u Hm.
    apply create_accepted in Hg as (v & Hv & -> & _); [|congruence].
    apply to_internal_value_Ok in Hv as (-> & Ht & He & Hp & _ & Hl).
    eexists. split; [reflexivity|]. cbn. split_and!; try done;
      intros x Hx; by apply stored_value; auto.
  - intros Hm pk Hst.
    destruct (get_response (Item "projects" pk) request db) as [o db']
      eqn:Hg.
    destruct o as [resp|]; [|done]. cbn in Hst. cbn [snd].
    assert (∃ action partial,
              respond (ProjectViewSet.update action partial u pk request db)
                db
              = (Responded resp, db')) as (action & partial & Hr).
    { destruct Hm as [Hm|Hm]; route_in Hg u Hm; eauto. }
    apply update_accepted in Hr as (p & v & Hp & Hv & -> & _);
      [|congruence].
    apply get_object_Ok in Hp as (Hp & Hpu & Hpk).
    pose proof (update_effect db p v Hp) as Heff.
    apply to_internal_value_Ok in Hv as (Hv & Ht & He & Hpr & _ & Hl).
    unfold serializers.update in *. cbn in *.
    destruct Heff as (Hfind & _ & _).
    eexists {| id := id p |}. cbn. split; [exact Hfind|].
    split_and!; try done; rewrite Hv; cbn;
      intros x Hx; by apply stored_value; auto.
Qed.

Lemma accepted_write_stores_supplied_witness :
  let request :=
    mkreq POST 1 []
      (FormData [("title", "Django Project"); ("description", "little");
                 ("price", "5")]) in
  let d := req_data request in
  let stored p :=
    (∀ x, supplied "title" d = Some x →
          title_field (ModelFields := sample_fields) x = Some (title p))
    ∧ (∀ x, supplied "description" d = Some x →
            description_field (ModelFields := sample_fields) x
            = Some (description p))
    ∧ (∀ x, supplied "price" d = Some x →
            price_field (ModelFields := sample_fields) x = Some (price p))
    ∧ (∀ x, supplied "link" d = Some x →
            link_field (ModelFields := sample_fields) x = Some (link p)) in
  (method request = POST →
   status (get_response (H := sample_fields) (Collection "projects") request
             sample_db).1 = Some 201 →
   ∃ p, project_table
          (get_response (H := sample_fields) (Collection "projects") request
             sample_db).2
        = (project_table sample_db ++ [p])%list
        ∧ id p = project_seq sample_db ∧ user p = 1 ∧ stored p)
  ∧ (method request = PUT ∨ method request = PATCH →
     ∀ pk,
       status (get_response (H := sample_fields) (Item "projects" pk) request
                 sample_db).1 = Some 200 →
       ∃ p, project_by_id
              (get_response (H := sample_fields) (Item "projects" pk) request
                 sample_db).2 (id p) = Some p
            ∧ Py.int_of_str pk = Some (id p) ∧ user p = 1 ∧ stored p).
Proof.
  apply (accepted_write_stores_supplied (H := sample_fields) sample_db 1
           (mkreq POST 1 []
              (FormData [("title", "Django Project");
                         ("description", "little"); ("price", "5")]))).
  - apply (bool_decide_unpack _). by vm_compute.
  - reflexivity.
Defined.

(** With the sample fields: the scenario of [test_create_basic_project]. *)
Example create_basic_stored_sample :
  project_by_id
    (get_response (H := sample_fields) (Collection "projects")
       (mkreq POST 1 []
          (FormData [("title", "Django Project"); ("description", "little");
                     ("price", "5")])) sample_db).2 4
  = Some {| id := 4; title := "Django Project"; description := "little";
            price := 500; link := ""; user := 1; tags := ∅ |}.
Proof. vm_compute. reflexivity. Qed.

(** ** Creating a tag needs a name *)

(** A tag cannot be created from JSON data without a [name] entry: the
    request is refused with 400 and nothing changes. *)
Theorem tag_create_requires_name `{!ModelFields} db u request j :
  req_user request = Some u → method request = POST →
  req_data request = JsonData j → dict_get "name" j = None →
  get_response (Collection "tags") request db
  = (Responded {| status_code := 400; data := Detail |}, db).
Proof.
  intros Hu Hm Hd Hn. route u Hm.
  unfold TagViewSet.create, serializers.Tag_to_internal_value.
  rewrite Hd. cbn. by rewrite Hn.
Qed.

Lemma tag_create_requires_name_witness :
  get_response (H := sample_fields) (Collection "tags")
    (mkreq POST 1 [] (JsonData [("title", DStr "gamma")])) sample_db
  = (Responded {| status_code := 400; data := Detail |}, sample_db).
Proof.
  apply (tag_create_requires_name (H := sample_fields) sample_db 1
           (mkreq POST 1 [] (JsonData [("title", DStr "gamma")]))
           [("title", DStr "gamma")]); reflexivity.
Defined.

(** ** References to tags *)

(** The tags that the [tags] field validates are rows of the table. *)
Lemma many_valid_in_table db items ts :
  serializers.many (serializers.tags_child_run_validation db <$> items)
  = serializers.Valid ts →
  Forall (λ t, t ∈ tag_table db) ts.
Proof.
  revert ts. induction items as [|item items IH]; intros ts Hm.
  - cbn in Hm. by simplify_eq.
  - rewrite fmap_cons in Hm. cbn [serializers.many] in Hm.
    destruct (serializers.tags_child_run_validation db item) as [t| | |e]
      eqn:Hc; try done.
    destruct (serializers.many _) as [ts'| | |e]; try done.
    simplify_eq. apply Forall_cons. split; [|by apply IH].
    unfold serializers.tags_child_run_validation, orm.get_tag in Hc.
    destruct (orm.to_pk item) as [k|]; [|done].
    rewrite evaluate_tags_all in Hc.
    destruct (filter _ (tag_table db)) as [|t0 [|t1 l]] eqn:Hf;
      cbn in Hc; simplify_eq.
    assert (t ∈ filter (λ t0, tag_id t0 = k) (tag_table db)) as Hin
      by (rewrite Hf; left).
    by apply list_elem_of_filter in Hin as [_ ?].
Qed.

Lemma validated_tags_in_table `{!ModelFields} cls db partial d v ts k :
  serializers.to_internal_value cls db partial d = Ok v →
  serializers.v_tags v = Some ts → k ∈ serializers.tag_keys ts →
  ∃ t, t ∈ tag_table db ∧ tag_id t = k.
Proof.
  intros Hv Hts Hk. apply to_internal_value_Ok in Hv as (-> & _).
  cbn in Hts. destruct cls; [|done].
  unfold tags_result, serializers.tags_run_validation in Hts.
  destruct (serializers.tags_get_value partial d) as [[| | | |items]|];
    try done; [|by destruct partial].
  destruct (serializers.many _) as [ts'| | |e] eqn:Hm; try done.
  cbn in Hts. simplify_eq.
  apply many_valid_in_table in Hm. rewrite Forall_forall in Hm.
  unfold serializers.tag_keys in Hk. apply elem_of_list_to_set in Hk.
  apply list_elem_of_fmap in Hk as (t & -> & Ht). eauto.
Qed.

(** One request keeps the references whole. *)
Lemma refs_ok_get_response `{!ModelFields} db path request :
  refs_ok db → refs_ok (get_response path request db).2.
Proof.
  intros Hok.
  destruct (req_user request) as [u|] eqn:Hu.
  2:{ by rewrite get_response_anonymous. }
  destruct (resolve path) as [p|] eqn:Hr.
  2:{ unfold get_response. by rewrite Hr. }
  apply resolve_Some in Hr as [[-> ->] | [[-> ->] | (pk & -> & ->)]];
    destruct (method request) eqn:Hm; route u Hm; try done.
  - unfold TagViewSet.list_.
    by destruct (BaseProjectAttrViewSet.get_queryset _ _ _).
  - unfold TagViewSet.create.
    destruct (serializers.Tag_to_internal_value _ _) as [v|e]; [|done].
    intros q k Hq Hk. cbn in Hq. destruct (Hok q k Hq Hk) as (t & Ht & Hid).
    exists t. split; [|done]. cbn. apply elem_of_app. by left.
  - unfold ProjectViewSet.create.
    change (ProjectViewSet.get_serializer_class ActCreate)
      with serializers.ProjectSerializer.
    destruct (serializers.to_internal_value _ _ _ _) as [v|e] eqn:Hv;
      [|done].
    intros q k Hq Hk. cbn in Hq. apply elem_of_app in Hq as [Hq | Hq].
    + by apply (Hok q k).
    + apply list_elem_of_singleton in Hq as ->. cbn in Hk.
      destruct (serializers.v_tags v) as [ts|] eqn:Hts; cbn in Hk.
      * by eapply validated_tags_in_table.
      * set_solver.
  - unfold ProjectViewSet.retrieve.
    by destruct (ProjectViewSet.get_object _ _ _).
  - unfold ProjectViewSet.update.
    destruct (ProjectViewSet.get_object u pk db) as [i|e] eqn:Hi; [|done].
    apply get_object_Ok in Hi as (Hi & _). cbn [mbind Result_bind].
    destruct (serializers.to_internal_value _ _ _ _) as [v|e] eqn:Hv;
      [|done].
    intros q k Hq Hk. cbn in Hq.
    apply list_elem_of_fmap in Hq as (q0 & -> & Hq0).
    case_decide; [|by apply (Hok q0 k)]. cbn in Hk.
    destruct (serializers.v_tags v) as [ts|] eqn:Hts; cbn in Hk.
    + by eapply validated_tags_in_table.
    + by apply (Hok i k).
  - unfold ProjectViewSet.partial_update, ProjectViewSet.update.
    destruct (ProjectViewSet.get_object u pk db) as [i|e] eqn:Hi; [|done].
    apply get_object_Ok in Hi as (Hi & _). cbn [mbind Result_bind].
    destruct (serializers.to_internal_value _ _ _ _) as [v|e] eqn:Hv;
      [|done].
    intros q k Hq Hk. cbn in Hq.
    apply list_elem_of_fmap in Hq as (q0 & -> & Hq0).
    case_decide; [|by apply (Hok q0 k)]. cbn in Hk.
    destruct (serializers.v_tags v) as [ts|] eqn:Hts; cbn in Hk.
    + by eapply validated_tags_in_table.
    + by apply (Hok i k).
  - unfold ProjectViewSet.destroy.
    destruct (ProjectViewSet.get_object u pk db) as [i|e]; [|done].
    intros q k Hq Hk. cbn in Hq.
    apply list_elem_of_filter in Hq as [_ Hq]. by apply (Hok q k).
Qed.

(** X21: a project never refers to a tag that does not exist. The
    serializer takes only references to existing tags and no request
    deletes a tag, so in every database that requests build from the empty
    one each key in the tag set of a project is the key of a tag. *)
Theorem reachable_refs_ok `{!ModelFields} requests :
  refs_ok (serve_all requests empty_db).
Proof.
  assert (∀ db, refs_ok db → refs_ok (serve_all requests db)) as Hall.
  { induction requests as [|[path request] rest IH]; intros db Hok; [done|].
    cbn. apply IH. by apply refs_ok_get_response. }
  apply Hall. intros p k Hp. by apply elem_of_nil in Hp.
Qed.
